(** * USBPcap helper functions: a shallow embedding and its properties

    The development follows [USBPcapDriver/USBPcapHelperFunctions.c].
    Every routine of that file talks to the Windows kernel (I/O manager,
    PnP manager, pool allocator, runtime library).  The routines are
    embedded as finite programs over the kernel calls they make; a kernel
    is any function answering those calls, possibly with a state of its
    own, and [run] executes a program against a kernel, recording what was
    called and what was answered. *)

From Stdlib Require Import ZArith List Bool Lia String Ascii.
Import ListNotations.
Local Open Scope Z_scope.

Set Implicit Arguments.

(** ** Machine integers and status codes *)

Definition NTSTATUS := Z.   (* LONG: signed 32 bits *)
Definition ULONG := Z.      (* unsigned 32 bits *)
Definition USHORT := Z.     (* unsigned 16 bits *)
Definition UCHAR := Z.
Definition WCHAR := Z.      (* one UTF-16 code unit *)
Definition PVOID := Z.      (* a non-NULL address; NULL is [None] *)
Definition PDEVICE_OBJECT := Z.
Definition PIRP := Z.

Definition ULONG_MAX : Z := 4294967295.
Definition wrapULONG (z : Z) : ULONG := z mod 4294967296.
Definition sizeof_WCHAR : Z := 2.

(** Values of ntstatus.h, as the signed 32-bit numbers they are. *)
Definition STATUS_SUCCESS : NTSTATUS := 0.
Definition STATUS_PENDING : NTSTATUS := 259.                          (* 0x00000103 *)
Definition STATUS_INVALID_PARAMETER : NTSTATUS := -1073741811.        (* 0xC000000D *)
Definition STATUS_INVALID_DEVICE_REQUEST : NTSTATUS := -1073741808.   (* 0xC0000010 *)
Definition STATUS_BUFFER_TOO_SMALL : NTSTATUS := -1073741789.         (* 0xC0000023 *)
Definition STATUS_INSUFFICIENT_RESOURCES : NTSTATUS := -1073741670.   (* 0xC000009A *)
Definition STATUS_NOT_SUPPORTED : NTSTATUS := -1073741637.            (* 0xC00000BB *)

(** [#define NT_SUCCESS(Status) (((NTSTATUS)(Status)) >= 0)] *)
Definition NT_SUCCESS (Status : NTSTATUS) : bool := 0 <=? Status.

(** Constants of wdm.h and usbioctl.h used by the file. *)
Definition IRP_MJ_PNP : Z := 27.                        (* 0x1b *)
Definition IRP_MN_QUERY_DEVICE_RELATIONS : Z := 7.
Definition TargetDeviceRelation : Z := 4.
Definition DevicePropertyLocationInformation : Z := 10.
Definition IOCTL_USB_GET_NODE_INFORMATION : Z := 2229256.                 (* 0x220408 *)
Definition IOCTL_USB_GET_NODE_CONNECTION_INFORMATION : Z := 2229260.      (* 0x22040C *)
Definition PagedPool : Z := 1.
Definition TAG_LOC : Z := 541282124.                    (* ' COL', 0x20434F4C *)
Definition UsbHub : Z := 0.
Definition UsbMIParent : Z := 1.

(** Wide characters the port parser looks at. *)
Definition L_NUL : WCHAR := 0.
Definition L_space : WCHAR := 32.
Definition L_hash : WCHAR := 35.

(** ** Structures *)

(** [DEVICE_RELATIONS]: a count and an array declared with one element,
    so [Objects[0]] is always inside the structure. *)
Record DEVICE_RELATIONS := {
  Count : ULONG;
  Objects_0 : PDEVICE_OBJECT;
  Objects_more : list PDEVICE_OBJECT
}.

(** [USB_NODE_INFORMATION]: a node type and a union.  The two members of
    the union are kept as two views of the same storage; the code picks
    the view by [NodeType]. *)
Record USB_NODE_INFORMATION := {
  NodeType : Z;
  u_HubInformation_HubDescriptor_bNumberOfPorts : UCHAR;
  u_MiParentInformation_NumberOfInterfaces : ULONG
}.

(** [USB_NODE_CONNECTION_INFORMATION], with the fields the file touches. *)
Record USB_NODE_CONNECTION_INFORMATION := {
  ConnectionIndex : ULONG;
  DeviceIsHub : Z;
  DeviceAddress : USHORT;
  ConnectionStatus : Z
}.

Definition set_ConnectionIndex (info : USB_NODE_CONNECTION_INFORMATION)
    (port : ULONG) : USB_NODE_CONNECTION_INFORMATION :=
  {| ConnectionIndex := port;
     DeviceIsHub := DeviceIsHub info;
     DeviceAddress := DeviceAddress info;
     ConnectionStatus := ConnectionStatus info |}.

Definition set_NodeType (info : USB_NODE_INFORMATION) (t : Z)
    : USB_NODE_INFORMATION :=
  {| NodeType := t;
     u_HubInformation_HubDescriptor_bNumberOfPorts :=
       u_HubInformation_HubDescriptor_bNumberOfPorts info;
     u_MiParentInformation_NumberOfInterfaces :=
       u_MiParentInformation_NumberOfInterfaces info |}.

(** ** Kernel calls *)

(** What a request asks for, indexed by what its completion leaves in the
    caller's memory: the [Information] pointer of a PnP relations query,
    the output buffer of a device control. *)
Inductive Request : Type -> Type :=
| PnpRequest (MinorFunction : Z) (RelationsType : Z) (IoStatus_Status : NTSTATUS)
    : Request (option DEVICE_RELATIONS)
| NodeInformationRequest (InputBuffer : USB_NODE_INFORMATION)
    : Request USB_NODE_INFORMATION
| NodeConnectionRequest (InputBuffer : USB_NODE_CONNECTION_INFORMATION)
    : Request USB_NODE_CONNECTION_INFORMATION.

(** The answer to [IoCallDriver]: the status the call itself returns,
    together with what the I/O manager stores in the caller's status
    block and buffer when the request completes (at once, or by the time
    the event is signalled when the call returned [STATUS_PENDING]). *)
Record Completion (B : Type) := {
  Returned_Status : NTSTATUS;
  ioStatus_Status : NTSTATUS;
  Payload : B
}.

(** Kernel calls, indexed by the type of their answer.  A pointer that
    may be NULL is an [option].  [IoGetDeviceProperty] answers its
    status, the [ResultLength] it stores and, cell by cell, the wide
    characters found in the caller's buffer afterwards (cells it did not
    write hold what the pool block held).  [RtlUnicodeStringToInteger]
    is given the characters of the [UNICODE_STRING] and answers its
    status and what [*Value] holds afterwards.  [ExFreePool_relations]
    is [ExFreePool] applied to a relations structure.  Debug output
    ([DbgPrint], [KdPrint], [DkDbgVal], [DkDbgStr]) is left out. *)
Inductive OSCall : Type -> Type :=
| KeInitializeEvent : OSCall unit
| IoBuildSynchronousFsdRequest (MajorFunction : Z) (DeviceObject : PDEVICE_OBJECT)
    : OSCall (option PIRP)
| IoBuildDeviceIoControlRequest (IoControlCode : Z) (DeviceObject : PDEVICE_OBJECT)
    : OSCall (option PIRP)
| IoCallDriver {B} (DeviceObject : PDEVICE_OBJECT) (irp : PIRP) (req : Request B)
    : OSCall (Completion B)
| KeWaitForSingleObject : OSCall NTSTATUS
| ExFreePool_relations (P : DEVICE_RELATIONS) : OSCall unit
| IoGetDeviceProperty (DeviceObject : PDEVICE_OBJECT) (DeviceProperty : Z)
    (BufferLength : ULONG) (PropertyBuffer : option PVOID)
    : OSCall (NTSTATUS * ULONG * (nat -> WCHAR))
| ExAllocatePoolWithTag (PoolType : Z) (NumberOfBytes : ULONG) (Tag : Z)
    : OSCall (option PVOID)
| ExFreePool (P : option PVOID) : OSCall unit
| RtlUnicodeStringToInteger (String : list WCHAR) (Base : ULONG)
    : OSCall (NTSTATUS * ULONG)
| ObDereferenceObject (Object : PDEVICE_OBJECT) : OSCall unit.

(** ** Programs over kernel calls *)

(** A routine returns a value, or makes a kernel call and goes on with
    the answer, or makes an access that C leaves undefined: through
    NULL, outside the block it indexes, or to a local that holds no
    value yet. *)
Inductive Prog (A : Type) : Type :=
| Ret (a : A)
| Fault
| Vis {X : Type} (e : OSCall X) (k : X -> Prog A).

Arguments Fault {A}.

Fixpoint bind {A B} (p : Prog A) (f : A -> Prog B) : Prog B :=
  match p with
  | Ret a => f a
  | Fault => Fault
  | Vis e k => Vis e (fun x => bind (k x) f)
  end.

Definition call {X} (e : OSCall X) : Prog X := Vis e (fun x => Ret x).

Declare Scope prog_scope.
Delimit Scope prog_scope with prog.
Notation "x <- c1 ;; c2" := (bind c1 (fun x => c2))
  (at level 61, c1 at next level, right associativity) : prog_scope.
Notation "' pat <- c1 ;; c2" := (bind c1 (fun x => match x with pat => c2 end))
  (at level 61, pat pattern, c1 at next level, right associativity) : prog_scope.
Notation "c1 ;; c2" := (bind c1 (fun _ => c2))
  (at level 61, right associativity) : prog_scope.
Local Open Scope prog_scope.

(** One recorded call with its answer. *)
Inductive Entry : Type :=
| Ev {X : Type} (e : OSCall X) (x : X).

(** How a run ends: with the value returned, or at a [Fault]. *)
Inductive Outcome (A : Type) : Type :=
| Returned (a : A)
| Crashed.

Arguments Crashed {A}.

(** A kernel with state [S] answers every call and moves to a new
    state.  Answers are taken to lie in the range of their C types. *)
Definition Kernel (S : Type) := forall X, OSCall X -> S -> X * S.

Fixpoint run {S A} (os : Kernel S) (p : Prog A) (s : S)
    : Outcome A * list Entry * S :=
  match p with
  | Ret a => (Returned a, [], s)
  | Fault => (Crashed, [], s)
  | Vis e k =>
      let '(x, s1) := os _ e s in
      let '(o, tr, s2) := run os (k x) s1 in
      (o, Ev e x :: tr, s2)
  end.

(** ** Memory behind [location] *)

(** The pool block behind the [PWCHAR location]: [None] is the NULL
    pointer, [Some cells] a block holding exactly these wide characters.
    An access through NULL or outside the block has no value. *)
Definition Block := list WCHAR.

Definition load (location : option Block) (idx : ULONG) : option WCHAR :=
  match location with
  | None => None
  | Some cells => nth_error cells (Z.to_nat idx)
  end.

Fixpoint update (cells : Block) (n : nat) (v : WCHAR) : option Block :=
  match cells, n with
  | [], _ => None
  | _ :: rest, O => Some (v :: rest)
  | c :: rest, S n' => option_map (cons c) (update rest n' v)
  end.

Definition store (location : option Block) (idx : ULONG) (v : WCHAR)
    : option (option Block) :=
  match location with
  | None => None
  | Some cells => option_map (@Some Block) (update cells (Z.to_nat idx) v)
  end.

(** A block of [NumberOfBytes] bytes holds this many whole [WCHAR]s. *)
Definition capacity (NumberOfBytes : ULONG) : nat :=
  Z.to_nat (NumberOfBytes / sizeof_WCHAR).

(** The block as [IoGetDeviceProperty] leaves it: cell [i] holds
    [contents i]. *)
Definition filled (NumberOfBytes : ULONG) (contents : nat -> WCHAR) : Block :=
  map contents (seq 0 (capacity NumberOfBytes)).

(** [wcslen]: characters before the first NUL; no value when the block
    ends before a NUL is met. *)
Fixpoint wcslen (cells : Block) : option nat :=
  match cells with
  | [] => None
  | c :: rest => if c =? L_NUL then Some O else option_map S (wcslen rest)
  end.

(** [RtlInitUnicodeString(&str, location)]: the [Length] in bytes it
    stores in [str], without the terminator and never above 0xFFFC; a
    NULL source gives the empty string. *)
Definition RtlInitUnicodeString (SourceString : option Block) : option USHORT :=
  match SourceString with
  | None => Some 0
  | Some cells =>
      match wcslen cells with
      | None => None
      | Some n => Some (Z.min (sizeof_WCHAR * Z.of_nat n) 65532)
      end
  end.

(** The characters a [UNICODE_STRING] of [Length] bytes over [location]
    denotes at the time it is read. *)
Definition unicode_text (Length : USHORT) (location : option Block) : list WCHAR :=
  match location with
  | None => []
  | Some cells => firstn (Z.to_nat (Length / sizeof_WCHAR)) cells
  end.

(** [for (idx = 0; location[idx] != L'#' && idx < length; ++idx)
         location[idx] = L' ';]
    The condition reads [location[idx]] before it compares [idx] with
    [length].  [idx + 1] cannot wrap, since [idx < length] held.  The
    first argument bounds the number of iterations; one more than the
    number of cells is always enough ([blank_until_hash_enough]). *)
Fixpoint blank_until_hash (fuel : nat) (location : option Block)
    (idx length : ULONG) : option (option Block * ULONG) :=
  match load location idx with
  | None => None
  | Some c =>
      if negb (c =? L_hash) && (idx <? length) then
        match fuel with
        | O => None
        | S fuel' =>
            match store location idx L_space with
            | None => None
            | Some location' =>
                blank_until_hash fuel' location' (idx + 1) length
            end
        end
      else Some (location, idx)
  end.

Definition block_size (location : option Block) : nat :=
  match location with
  | None => O
  | Some cells => List.length cells
  end.

(** ** The routines of USBPcapHelperFunctions.c *)

(** The bridge's tail, shared by the three request routines:
    [if (status == STATUS_PENDING) { KeWaitForSingleObject(...);
                                     status = ioStatus.Status; }] *)
Definition wait_if_pending {B} (c : Completion B) : Prog NTSTATUS :=
  if Returned_Status c =? STATUS_PENDING
  then call KeWaitForSingleObject ;; Ret (ioStatus_Status c)
  else Ret (Returned_Status c).

(** [USBPcapGetTargetDevicePdo(DeviceObject, &pdo)]: the status, and the
    value stored through [pdo] when one is stored. *)
Definition USBPcapGetTargetDevicePdo (DeviceObject : PDEVICE_OBJECT)
    : Prog (NTSTATUS * option PDEVICE_OBJECT) :=
  call KeInitializeEvent ;;
  irp <- call (IoBuildSynchronousFsdRequest IRP_MJ_PNP DeviceObject) ;;
  match irp with
  | None => Ret (STATUS_INSUFFICIENT_RESOURCES, None)
  | Some irp =>
      c <- call (IoCallDriver DeviceObject irp
                   (PnpRequest IRP_MN_QUERY_DEVICE_RELATIONS
                               TargetDeviceRelation
                               STATUS_NOT_SUPPORTED)) ;;
      status <- wait_if_pending c ;;
      if NT_SUCCESS status then
        match Payload c with
        | None => Fault                      (* deviceRelations->Objects[0] *)
        | Some deviceRelations =>
            call (ExFreePool_relations deviceRelations) ;;
            Ret (status, Some (Objects_0 deviceRelations))
        end
      else Ret (status, None)
  end.

(** [USBPcapGetTargetDevicePort(pdo_device, &port)]: the status, and
    what [*port] holds after the conversion when the routine gets that
    far ([None]: [*port] was never touched).  The second property query
    overwrites [length]; the block keeps the size it was allocated
    with. *)
Definition USBPcapGetTargetDevicePort (pdo_device : PDEVICE_OBJECT)
    : Prog (NTSTATUS * option ULONG) :=
  '(status, length, _) <-
      call (IoGetDeviceProperty pdo_device DevicePropertyLocationInformation
              0 None) ;;
  if negb (status =? STATUS_BUFFER_TOO_SMALL) then
    if negb (NT_SUCCESS status) then Ret (status, None)
    else Ret (STATUS_INVALID_DEVICE_REQUEST, None)
  else
    location <- call (ExAllocatePoolWithTag PagedPool length TAG_LOC) ;;
    '(status, length', contents) <-
        call (IoGetDeviceProperty pdo_device DevicePropertyLocationInformation
                length location) ;;
    if negb (NT_SUCCESS status) then
      call (ExFreePool location) ;;
      Ret (status, None)
    else
      let block := option_map (fun _ => filled length contents) location in
      match RtlInitUnicodeString block with
      | None => Fault
      | Some str_Length =>
          match blank_until_hash (S (block_size block)) block 0 length' with
          | None => Fault
          | Some (block, idx) =>
              match store block idx L_space with      (* Remove # as well *)
              | None => Fault
              | Some block =>
                  '(status, port) <-
                      call (RtlUnicodeStringToInteger
                              (unicode_text str_Length block) 0) ;;
                  call (ExFreePool location) ;;
                  Ret (status, Some port)
              end
          end
      end.

(** [USBPcapGetNumberOfPorts(parent, &numberOfPorts)].  [info] is the
    local of that name with whatever it holds on entry. *)
Definition USBPcapGetNumberOfPorts (parent : PDEVICE_OBJECT)
    (info : USB_NODE_INFORMATION) : Prog (NTSTATUS * option ULONG) :=
  let info := set_NodeType info UsbHub in
  call KeInitializeEvent ;;
  irp <- call (IoBuildDeviceIoControlRequest IOCTL_USB_GET_NODE_INFORMATION
                 parent) ;;
  match irp with
  | None => Ret (STATUS_INSUFFICIENT_RESOURCES, None)
  | Some irp =>
      c <- call (IoCallDriver parent irp (NodeInformationRequest info)) ;;
      status <- wait_if_pending c ;;
      if negb (NT_SUCCESS status) then Ret (status, None)
      else
        let info := Payload c in
        if NodeType info =? UsbHub then
          Ret (status,
               Some (u_HubInformation_HubDescriptor_bNumberOfPorts info))
        else
          Ret (status, Some (u_MiParentInformation_NumberOfInterfaces info))
  end.

(** [USBPcapGetNodeInformation(hub, port, info)]: the status and the
    caller's record [*info] as the call leaves it. *)
Definition USBPcapGetNodeInformation (hub : PDEVICE_OBJECT) (port : ULONG)
    (info : USB_NODE_CONNECTION_INFORMATION)
    : Prog (NTSTATUS * USB_NODE_CONNECTION_INFORMATION) :=
  let info := set_ConnectionIndex info port in
  call KeInitializeEvent ;;
  irp <- call (IoBuildDeviceIoControlRequest
                 IOCTL_USB_GET_NODE_CONNECTION_INFORMATION hub) ;;
  match irp with
  | None => Ret (STATUS_INSUFFICIENT_RESOURCES, info)
  | Some irp =>
      c <- call (IoCallDriver hub irp (NodeConnectionRequest info)) ;;
      status <- wait_if_pending c ;;
      Ret (status, Payload c)
  end.

(** [USBPcapGetDeviceUSBAddress(hub, device, &address)]: the status, and
    the value stored through [address] when one is stored.  [info] is the
    local of that name with whatever it holds on entry; [devicePdo] and
    [port] are locals without a value until a callee stores one. *)
Definition USBPcapGetDeviceUSBAddress (hub device : PDEVICE_OBJECT)
    (info : USB_NODE_CONNECTION_INFORMATION)
    : Prog (NTSTATUS * option USHORT) :=
  '(status, devicePdo) <- USBPcapGetTargetDevicePdo device ;;
  if negb (NT_SUCCESS status) then Ret (status, None)
  else
    match devicePdo with
    | None => Fault
    | Some devicePdo =>
        '(status, port) <- USBPcapGetTargetDevicePort devicePdo ;;
        call (ObDereferenceObject devicePdo) ;;
        if negb (NT_SUCCESS status) then Ret (status, None)
        else
          match port with
          | None => Fault
          | Some port =>
              '(status, info) <- USBPcapGetNodeInformation hub port info ;;
              if NT_SUCCESS status then
                Ret (status, Some (DeviceAddress info))
              else Ret (status, None)
          end
    end.

Definition outcome_of {S A} (r : Outcome A * list Entry * S) : Outcome A :=
  fst (fst r).
Definition trace_of {S A} (r : Outcome A * list Entry * S) : list Entry :=
  snd (fst r).

(** ** Reading a trace *)

(** The status of a request once it is complete: what [IoCallDriver]
    returned, or the status block's when that was [STATUS_PENDING]. *)
Definition final_status {B} (c : Completion B) : NTSTATUS :=
  if Returned_Status c =? STATUS_PENDING then ioStatus_Status c
  else Returned_Status c.

Definition is_dispatch (en : Entry) : bool :=
  match en with
  | Ev e _ => match e with IoCallDriver _ _ _ => true | _ => false end
  end.

Definition is_wait (en : Entry) : bool :=
  match en with
  | Ev e _ => match e with KeWaitForSingleObject => true | _ => false end
  end.

(** A request object could not be built: the build call answered NULL. *)
Definition irp_refused (en : Entry) : bool :=
  match en with
  | Ev e x =>
      match e in OSCall X return X -> bool with
      | IoBuildSynchronousFsdRequest _ _ =>
          fun irp => match irp with None => true | Some _ => false end
      | IoBuildDeviceIoControlRequest _ _ =>
          fun irp => match irp with None => true | Some _ => false end
      | _ => fun _ => false
      end x
  end.

(** The location queries of a trace: buffer length, buffer, status. *)
Definition property_query (en : Entry)
    : list (ULONG * option PVOID * NTSTATUS) :=
  match en with
  | Ev e x =>
      match e in OSCall X return X -> list (ULONG * option PVOID * NTSTATUS) with
      | IoGetDeviceProperty _ _ BufferLength PropertyBuffer =>
          fun r => [(BufferLength, PropertyBuffer, fst (fst r))]
      | _ => fun _ => []
      end x
  end.

(** The pool allocations of a trace: size asked and block obtained. *)
Definition allocation (en : Entry) : list (ULONG * option PVOID) :=
  match en with
  | Ev e x =>
      match e in OSCall X return X -> list (ULONG * option PVOID) with
      | ExAllocatePoolWithTag _ NumberOfBytes _ => fun p => [(NumberOfBytes, p)]
      | _ => fun _ => []
      end x
  end.

(** The pool blocks handed to [ExFreePool]. *)
Definition freed (en : Entry) : list (option PVOID) :=
  match en with
  | Ev e _ => match e with ExFreePool P => [P] | _ => [] end
  end.

(** The integer conversions of a trace: the text and what was answered. *)
Definition conversion (en : Entry) : list (list WCHAR * NTSTATUS * ULONG) :=
  match en with
  | Ev e x =>
      match e in OSCall X return X -> list (list WCHAR * NTSTATUS * ULONG) with
      | RtlUnicodeStringToInteger str _ => fun r => [(str, fst r, snd r)]
      | _ => fun _ => []
      end x
  end.

(** The connection queries of a trace: the hub asked, the record sent as
    input, and the completion. *)
Definition connection_query (en : Entry)
    : list (PDEVICE_OBJECT * USB_NODE_CONNECTION_INFORMATION *
            Completion USB_NODE_CONNECTION_INFORMATION) :=
  match en with
  | Ev e x =>
      match e in OSCall X
            return X -> list (PDEVICE_OBJECT * USB_NODE_CONNECTION_INFORMATION *
                              Completion USB_NODE_CONNECTION_INFORMATION) with
      | IoCallDriver dev _ req =>
          match req in Request B
                return Completion B ->
                       list (PDEVICE_OBJECT * USB_NODE_CONNECTION_INFORMATION *
                             Completion USB_NODE_CONNECTION_INFORMATION) with
          | NodeConnectionRequest input => fun c => [(dev, input, c)]
          | _ => fun _ => []
          end
      | _ => fun _ => []
      end x
  end.

(** References on device objects handed to the caller: a target-device
    relations request that completes with success returns [Objects[0]]
    referenced. *)
Definition acquired (en : Entry) : list PDEVICE_OBJECT :=
  match en with
  | Ev e x =>
      match e in OSCall X return X -> list PDEVICE_OBJECT with
      | IoCallDriver _ _ req =>
          match req in Request B return Completion B -> list PDEVICE_OBJECT with
          | PnpRequest _ _ _ =>
              fun c =>
                if NT_SUCCESS (final_status c) then
                  match Payload c with
                  | Some deviceRelations => [Objects_0 deviceRelations]
                  | None => []
                  end
                else []
          | _ => fun _ => []
          end
      | _ => fun _ => []
      end x
  end.

(** References given back with [ObDereferenceObject]. *)
Definition released (en : Entry) : list PDEVICE_OBJECT :=
  match en with
  | Ev e _ => match e with ObDereferenceObject Object => [Object] | _ => [] end
  end.

(** All observations of one kind along a trace, in order. *)
Definition along {T} (obs : Entry -> list T) (tr : list Entry) : list T :=
  flat_map obs tr.

(** The reference count of [pdo] after a trace, starting from [baseline]. *)
Definition reference_count (baseline : Z) (pdo : PDEVICE_OBJECT)
    (tr : list Entry) : Z :=
  baseline
  + Z.of_nat (count_occ Z.eq_dec (along acquired tr) pdo)
  - Z.of_nat (count_occ Z.eq_dec (along released tr) pdo).


(** The three operations that go through the request bridge, and the
    status each returns. *)
Inductive BridgeOperation : Type :=
| PdoQuery (DeviceObject : PDEVICE_OBJECT)
| PortCountQuery (parent : PDEVICE_OBJECT) (info : USB_NODE_INFORMATION)
| ConnectionInfoQuery (hub : PDEVICE_OBJECT) (port : ULONG)
    (info : USB_NODE_CONNECTION_INFORMATION).

Definition bridge_status (op : BridgeOperation) : Prog NTSTATUS :=
  match op with
  | PdoQuery DeviceObject =>
      '(status, _) <- USBPcapGetTargetDevicePdo DeviceObject ;; Ret status
  | PortCountQuery parent info =>
      '(status, _) <- USBPcapGetNumberOfPorts parent info ;; Ret status
  | ConnectionInfoQuery hub port info =>
      '(status, _) <- USBPcapGetNodeInformation hub port info ;; Ret status
  end.

(** The successfully filled property buffers of a trace: the block as
    the query left it and the length the query reported. *)
Definition property_buffer (en : Entry) : list (Block * ULONG) :=
  match en with
  | Ev e x =>
      match e in OSCall X return X -> list (Block * ULONG) with
      | IoGetDeviceProperty _ _ BufferLength (Some _) =>
          fun r =>
            if NT_SUCCESS (fst (fst r))
            then [(filled BufferLength (snd r), snd (fst r))]
            else []
      | _ => fun _ => []
      end x
  end.

(** The text [RtlInitUnicodeString] delimits in a block of which the
    first [k] cells have been blanked since. *)
Definition blanked_text (cells : Block) (k : nat) (Length : USHORT)
    : list WCHAR :=
  firstn (Z.to_nat (Length / sizeof_WCHAR))
         (repeat L_space k ++ skipn k cells).

(** The value of a run of decimal digits. *)
Definition decimal (ds : list WCHAR) : Z :=
  fold_left (fun total c => total * 10 + (c - 48)) ds 0.

Definition is_decimal_digit (c : WCHAR) : bool := (48 <=? c) && (c <=? 57).

(** ** The integer conversion of the runtime library *)

Module Classic.

(** The conversion the sample kernels answer [RtlUnicodeStringToInteger]
    with: the format [{whitespace} [+|-] [0[x|o|b]] {digits}] of the
    routine's documentation, the low 32 bits of the value, no overflow
    check.  The routine belongs to the runtime library and is a kernel
    call in the model; properties of the routines above that are stated
    for every kernel do not depend on this function. *)

Fixpoint skip_blanks (s : list WCHAR) : list WCHAR :=
  match s with
  | c :: rest => if c <=? L_space then skip_blanks rest else s
  | [] => []
  end.

Definition digit_of (c : WCHAR) : Z :=
  if (48 <=? c) && (c <=? 57) then c - 48
  else if (65 <=? c) && (c <=? 90) then c - 65 + 10
  else if (97 <=? c) && (c <=? 122) then c - 97 + 10
  else -1.

Fixpoint digits (base : Z) (s : list WCHAR) (total : Z) : Z :=
  match s with
  | [] => total
  | c :: rest =>
      let d := digit_of c in
      if (d <? 0) || (base <=? d) then total
      else digits base rest (wrapULONG (total * base + d))
  end.

Definition sign (s : list WCHAR) : bool * list WCHAR :=
  match s with
  | c :: rest =>
      if c =? 43 then (false, rest)          (* + *)
      else if c =? 45 then (true, rest)      (* - *)
      else (false, s)
  | [] => (false, s)
  end.

Definition prefix (base : Z) (s : list WCHAR) : Z * list WCHAR :=
  if base =? 0 then
    match s with
    | c0 :: c1 :: rest =>
        if (c0 =? 48) && (c1 =? 98) then (2, rest)          (* 0b *)
        else if (c0 =? 48) && (c1 =? 111) then (8, rest)    (* 0o *)
        else if (c0 =? 48) && (c1 =? 120) then (16, rest)   (* 0x *)
        else (10, s)
    | _ => (10, s)
    end
  else (base, s).

Definition UnicodeStringToInteger (str : list WCHAR) (base : ULONG)
    : NTSTATUS * ULONG :=
  let '(minus, s) := sign (skip_blanks str) in
  let '(base, s) := prefix base s in
  if negb ((base =? 2) || (base =? 8) || (base =? 10) || (base =? 16))
  then (STATUS_INVALID_PARAMETER, 0)
  else
    let total := digits base s 0 in
    (STATUS_SUCCESS, if minus then wrapULONG (0 - total) else total).

End Classic.

(** The byte size of a wide string with its terminator. *)
Definition size_in_bytes (text : list WCHAR) : ULONG :=
  sizeof_WCHAR * (Z.of_nat (List.length text) + 1).

(** What may follow the digits of the port: nothing, or a character
    that is neither a digit nor a letter, such as the [.] of
    [Port_#XXXX.Hub_#YYYY]. *)
Definition ends_digit_run (rest : list WCHAR) : Prop :=
  match rest with
  | [] => True
  | c :: _ => Classic.digit_of c = -1
  end.

(** The routine returned a failing status. *)
Definition rejected {St A} (r : Outcome (NTSTATUS * A) * list Entry * St) : Prop :=
  exists status a,
    outcome_of r = Returned (status, a) /\ NT_SUCCESS status = false.

(** The integer conversions of a trace as they were called: the text,
    the base passed, and what was answered. *)
Definition conversion_call (en : Entry)
    : list (list WCHAR * ULONG * NTSTATUS * ULONG) :=
  match en with
  | Ev e x =>
      match e in OSCall X
            return X -> list (list WCHAR * ULONG * NTSTATUS * ULONG) with
      | RtlUnicodeStringToInteger str base => fun r => [(str, base, fst r, snd r)]
      | _ => fun _ => []
      end x
  end.

(** The conversions of a trace were answered as [Classic] does for the
    text and the base each was called with. *)
Definition classic_conversions (tr : list Entry) : Prop :=
  Forall (fun c => (snd (fst c), snd c)
                   = Classic.UnicodeStringToInteger (fst (fst (fst c)))
                                                    (snd (fst (fst c))))
         (along conversion_call tr).

(** The node-information requests of a trace: the device asked, the
    record sent as input, and the completion. *)
Definition node_request (en : Entry)
    : list (PDEVICE_OBJECT * USB_NODE_INFORMATION *
            Completion USB_NODE_INFORMATION) :=
  match en with
  | Ev e x =>
      match e in OSCall X
            return X -> list (PDEVICE_OBJECT * USB_NODE_INFORMATION *
                              Completion USB_NODE_INFORMATION) with
      | IoCallDriver dev _ req =>
          match req in Request B
                return Completion B ->
                       list (PDEVICE_OBJECT * USB_NODE_INFORMATION *
                             Completion USB_NODE_INFORMATION) with
          | NodeInformationRequest input => fun c => [(dev, input, c)]
          | _ => fun _ => []
          end
      | _ => fun _ => []
      end x
  end.

(** Every request dispatched: what [IoCallDriver] returned and the final
    status of the request. *)
Definition dispatched (en : Entry) : list (NTSTATUS * NTSTATUS) :=
  match en with
  | Ev e x =>
      match e in OSCall X return X -> list (NTSTATUS * NTSTATUS) with
      | IoCallDriver _ _ _ => fun c => [(Returned_Status c, final_status c)]
      | _ => fun _ => []
      end x
  end.

(** The pipeline of [USBPcapGetDeviceUSBAddress], step by step: which
    result and which trace the call has when it returns, given how the
    kernel makes each step end.  Steps are the three routines the
    resolver calls, each run from the state the previous one left. *)
Inductive resolves {St} (os : Kernel St) (hub device : PDEVICE_OBJECT)
    (info : USB_NODE_CONNECTION_INFORMATION) (s : St)
    : NTSTATUS * option USHORT -> list Entry -> Prop :=
| pdo_step_fails status pdo tr1 s1 :
    run os (USBPcapGetTargetDevicePdo device) s
    = (Returned (status, pdo), tr1, s1) ->
    NT_SUCCESS status = false ->
    resolves os hub device info s (status, None) tr1
| port_step_fails status1 pdo tr1 s1 status port tr2 s2 u s3 :
    run os (USBPcapGetTargetDevicePdo device) s
    = (Returned (status1, Some pdo), tr1, s1) ->
    NT_SUCCESS status1 = true ->
    run os (USBPcapGetTargetDevicePort pdo) s1
    = (Returned (status, port), tr2, s2) ->
    os _ (ObDereferenceObject pdo) s2 = (u, s3) ->
    NT_SUCCESS status = false ->
    resolves os hub device info s (status, None)
             (tr1 ++ tr2 ++ [Ev (ObDereferenceObject pdo) u])
| hub_step_fails status1 pdo tr1 s1 status2 port tr2 s2 u s3
                 status info' tr3 s4 :
    run os (USBPcapGetTargetDevicePdo device) s
    = (Returned (status1, Some pdo), tr1, s1) ->
    NT_SUCCESS status1 = true ->
    run os (USBPcapGetTargetDevicePort pdo) s1
    = (Returned (status2, Some port), tr2, s2) ->
    os _ (ObDereferenceObject pdo) s2 = (u, s3) ->
    NT_SUCCESS status2 = true ->
    run os (USBPcapGetNodeInformation hub port info) s3
    = (Returned (status, info'), tr3, s4) ->
    NT_SUCCESS status = false ->
    resolves os hub device info s (status, None)
             (tr1 ++ tr2 ++ [Ev (ObDereferenceObject pdo) u] ++ tr3)
| all_steps_succeed status1 pdo tr1 s1 status2 port tr2 s2 u s3
                    status info' tr3 s4 :
    run os (USBPcapGetTargetDevicePdo device) s
    = (Returned (status1, Some pdo), tr1, s1) ->
    NT_SUCCESS status1 = true ->
    run os (USBPcapGetTargetDevicePort pdo) s1
    = (Returned (status2, Some port), tr2, s2) ->
    os _ (ObDereferenceObject pdo) s2 = (u, s3) ->
    NT_SUCCESS status2 = true ->
    run os (USBPcapGetNodeInformation hub port info) s3
    = (Returned (status, info'), tr3, s4) ->
    NT_SUCCESS status = true ->
    resolves os hub device info s (status, Some (DeviceAddress info'))
             (tr1 ++ tr2 ++ [Ev (ObDereferenceObject pdo) u] ++ tr3).

(** ** Sample kernels *)

(** A wide string from its ASCII spelling. *)
Definition L (s : string) : list WCHAR :=
  map (fun a => Z.of_N (N_of_ascii a)) (list_ascii_of_string s).

(** A kernel described by what it answers to each kind of call: whether
    request objects can be built, how the three requests complete, what
    the two phases of the location query report, whether the pool has
    memory, and the text it writes into the property buffer. *)
Record Scenario := {
  fsd_irp : option PIRP;
  ioctl_irp : option PIRP;
  relations : Completion (option DEVICE_RELATIONS);
  node_information : Completion USB_NODE_INFORMATION;
  connection : USB_NODE_CONNECTION_INFORMATION ->
               Completion USB_NODE_CONNECTION_INFORMATION;
  probe : NTSTATUS * ULONG;
  pool : option PVOID;
  fill : NTSTATUS;
  location_text : list WCHAR
}.

Definition answer (sc : Scenario) (X : Type) (e : OSCall X) : X :=
  match e in OSCall X return X with
  | KeInitializeEvent => tt
  | IoBuildSynchronousFsdRequest _ _ => fsd_irp sc
  | IoBuildDeviceIoControlRequest _ _ => ioctl_irp sc
  | IoCallDriver _ _ req =>
      match req in Request B return Completion B with
      | PnpRequest _ _ _ => relations sc
      | NodeInformationRequest _ => node_information sc
      | NodeConnectionRequest info => connection sc info
      end
  | KeWaitForSingleObject => STATUS_SUCCESS
  | ExFreePool_relations _ => tt
  | IoGetDeviceProperty _ _ BufferLength _ =>
      if BufferLength =? 0 then (probe sc, fun _ => L_NUL)
      else (fill sc, snd (probe sc),
            fun i => nth i (location_text sc) L_NUL)
  | ExAllocatePoolWithTag _ _ _ => pool sc
  | ExFreePool _ => tt
  | RtlUnicodeStringToInteger str base => Classic.UnicodeStringToInteger str base
  | ObDereferenceObject _ => tt
  end.

Definition kernel_of (sc : Scenario) : Kernel unit :=
  fun X e s => (answer sc e, s).

(** A hub whose port [p] holds a device with address [100 + p]. *)
Definition hub_table (info : USB_NODE_CONNECTION_INFORMATION)
    : Completion USB_NODE_CONNECTION_INFORMATION :=
  {| Returned_Status := STATUS_SUCCESS;
     ioStatus_Status := STATUS_SUCCESS;
     Payload := {| ConnectionIndex := ConnectionIndex info;
                   DeviceIsHub := 0;
                   DeviceAddress := 100 + ConnectionIndex info;
                   ConnectionStatus := 1 |} |}.

(** A machine on which everything works and the device reports the
    location [text]. *)
Definition healthy (text : string) : Scenario :=
  {| fsd_irp := Some 1;
     ioctl_irp := Some 2;
     relations :=
       {| Returned_Status := STATUS_SUCCESS;
          ioStatus_Status := STATUS_SUCCESS;
          Payload := Some {| Count := 1; Objects_0 := 77; Objects_more := [] |} |};
     node_information :=
       {| Returned_Status := STATUS_SUCCESS;
          ioStatus_Status := STATUS_SUCCESS;
          Payload := {| NodeType := UsbHub;
                        u_HubInformation_HubDescriptor_bNumberOfPorts := 4;
                        u_MiParentInformation_NumberOfInterfaces := 0 |} |};
     connection := hub_table;
     probe := (STATUS_BUFFER_TOO_SMALL, size_in_bytes (L text));
     pool := Some 4096;
     fill := STATUS_SUCCESS;
     location_text := L text |}.

Definition no_info : USB_NODE_CONNECTION_INFORMATION :=
  {| ConnectionIndex := 0; DeviceIsHub := 0; DeviceAddress := 0;
     ConnectionStatus := 0 |}.


(** Variations of the healthy machine. *)

(** The first, zero-size location query answers [status] and [length]. *)
Definition with_probe (sc : Scenario) (status : NTSTATUS) (length : ULONG)
    : Scenario :=
  {| fsd_irp := fsd_irp sc; ioctl_irp := ioctl_irp sc;
     relations := relations sc; node_information := node_information sc;
     connection := connection sc; probe := (status, length);
     pool := pool sc; fill := fill sc; location_text := location_text sc |}.

(** No request object can be built. *)
Definition without_irps (sc : Scenario) : Scenario :=
  {| fsd_irp := None; ioctl_irp := None;
     relations := relations sc; node_information := node_information sc;
     connection := connection sc; probe := probe sc;
     pool := pool sc; fill := fill sc; location_text := location_text sc |}.

(** The pool is exhausted. *)
Definition without_pool (sc : Scenario) : Scenario :=
  {| fsd_irp := fsd_irp sc; ioctl_irp := ioctl_irp sc;
     relations := relations sc; node_information := node_information sc;
     connection := connection sc; probe := probe sc;
     pool := None; fill := fill sc; location_text := location_text sc |}.

(** The node-information request completes as [c]. *)
Definition with_node_information (sc : Scenario)
    (c : Completion USB_NODE_INFORMATION) : Scenario :=
  {| fsd_irp := fsd_irp sc; ioctl_irp := ioctl_irp sc;
     relations := relations sc; node_information := c;
     connection := connection sc; probe := probe sc;
     pool := pool sc; fill := fill sc; location_text := location_text sc |}.

(** A composite parent with three interfaces, answering asynchronously. *)
Definition composite_parent : Completion USB_NODE_INFORMATION :=
  {| Returned_Status := STATUS_PENDING;
     ioStatus_Status := STATUS_SUCCESS;
     Payload := {| NodeType := UsbMIParent;
                   u_HubInformation_HubDescriptor_bNumberOfPorts := 9;
                   u_MiParentInformation_NumberOfInterfaces := 3 |} |}.

Definition no_node_info : USB_NODE_INFORMATION :=
  {| NodeType := UsbMIParent;
     u_HubInformation_HubDescriptor_bNumberOfPorts := 0;
     u_MiParentInformation_NumberOfInterfaces := 0 |}.


(** ** The debug listing of a hub's ports *)

(** [for (idx = 1; idx <= maxIndex; idx++)
         USBPcapGetNodeInformation(hub, idx, &info);]
    [idx] is a [ULONG], so [idx++] wraps.  The loop need not end: the
    first argument bounds the number of iterations, and the result says
    whether the loop ended within the bound.  The status of each query
    is dropped; [info] is the one local, handed from query to query. *)
Fixpoint print_children_loop (fuel : nat) (hub : PDEVICE_OBJECT)
    (idx maxIndex : ULONG) (info : USB_NODE_CONNECTION_INFORMATION)
    : Prog bool :=
  if idx <=? maxIndex then
    match fuel with
    | O => Ret false
    | S fuel' =>
        '(_, info) <- USBPcapGetNodeInformation hub idx info ;;
        print_children_loop fuel' hub (wrapULONG (idx + 1)) maxIndex info
    end
  else Ret true.

(** [USBPcapPrintUSBPChildrenInformation(hub)], compiled under [DBG]:
    the status returned, or [None] when the loop has not ended within
    [fuel] iterations.  [node_info] is what the local [info] of
    [USBPcapGetNumberOfPorts] holds on entry, [info] what the local of
    this routine holds; [maxIndex] has no value until the callee stores
    one. *)
Definition USBPcapPrintUSBPChildrenInformation (fuel : nat)
    (hub : PDEVICE_OBJECT) (node_info : USB_NODE_INFORMATION)
    (info : USB_NODE_CONNECTION_INFORMATION) : Prog (option NTSTATUS) :=
  '(status, maxIndex) <- USBPcapGetNumberOfPorts hub node_info ;;
  if negb (NT_SUCCESS status) then Ret (Some status)
  else
    match maxIndex with
    | None => Fault
    | Some maxIndex =>
        ended <- print_children_loop fuel hub 1 maxIndex info ;;
        if ended then Ret (Some STATUS_SUCCESS) else Ret None
    end.

(** ** More readings of a trace *)



(** The devices whose properties were queried. *)
Definition queried (en : Entry) : list PDEVICE_OBJECT :=
  match en with
  | Ev e _ =>
      match e with IoGetDeviceProperty dev _ _ _ => [dev] | _ => [] end
  end.

(** The answers to the builds of connection-information requests. *)
Definition connection_build (en : Entry) : list (option PIRP) :=
  match en with
  | Ev e x =>
      match e in OSCall X return X -> list (option PIRP) with
      | IoBuildDeviceIoControlRequest code _ =>
          fun irp =>
            if code =? IOCTL_USB_GET_NODE_CONNECTION_INFORMATION
            then [irp] else []
      | _ => fun _ => []
      end x
  end.

(** The port indices of the connection requests dispatched. *)
Definition asked_ports (tr : list Entry) : list ULONG :=
  map (fun q => ConnectionIndex (snd (fst q))) (along connection_query tr).

(** Of the indices [idx], [idx + 1], ... those whose request was built. *)
Fixpoint built_indices (idx : Z) (answers : list (option PIRP)) : list Z :=
  match answers with
  | [] => []
  | Some _ :: rest => idx :: built_indices (idx + 1) rest
  | None :: rest => built_indices (idx + 1) rest
  end.

(** A composite parent that reports [n] interfaces. *)
Definition parent_with (n : ULONG) : Completion USB_NODE_INFORMATION :=
  {| Returned_Status := STATUS_SUCCESS;
     ioStatus_Status := STATUS_SUCCESS;
     Payload := {| NodeType := UsbMIParent;
                   u_HubInformation_HubDescriptor_bNumberOfPorts := 0;
                   u_MiParentInformation_NumberOfInterfaces := n |} |}.

(** The relations request completes as [c]. *)
Definition with_relations (sc : Scenario)
    (c : Completion (option DEVICE_RELATIONS)) : Scenario :=
  {| fsd_irp := fsd_irp sc; ioctl_irp := ioctl_irp sc;
     relations := c; node_information := node_information sc;
     connection := connection sc; probe := probe sc;
     pool := pool sc; fill := fill sc; location_text := location_text sc |}.


(** The kernel of a scenario, except that the second location query
    reports the length [reported]. *)
Definition answer_reporting (sc : Scenario) (reported : ULONG)
    (X : Type) (e : OSCall X) : X :=
  match e in OSCall X return X with
  | IoGetDeviceProperty dev property BufferLength buffer =>
      if BufferLength =? 0
      then answer sc (IoGetDeviceProperty dev property BufferLength buffer)
      else (fill sc, reported, fun i => nth i (location_text sc) L_NUL)
  | e' => answer sc e'
  end.

Definition kernel_reporting (sc : Scenario) (reported : ULONG) : Kernel unit :=
  fun X e s => (answer_reporting sc reported e, s).

(** What follows the first [ObDereferenceObject] of a trace; nothing when
    no reference is given back. *)
Fixpoint after_release (tr : list Entry) : list Entry :=
  match tr with
  | [] => []
  | en :: rest =>
      match released en with
      | [] => after_release rest
      | _ :: _ => rest
      end
  end.
(** ** Running programs *)

Unset Implicit Arguments.

Lemma run_bind {S A B} (os : Kernel S) (p : Prog A) (f : A -> Prog B) s :
  run os (bind p f) s =
  match run os p s with
  | (Returned a, tr, s1) =>
      let '(o, tr2, s2) := run os (f a) s1 in (o, tr ++ tr2, s2)
  | (Crashed, tr, s1) => (Crashed, tr, s1)
  end.
Proof.
  revert s. induction p as [a | | X e k IH]; intros s; simpl.
  - destruct (run os (f a) s) as [[o tr] s2]. reflexivity.
  - reflexivity.
  - destruct (os X e s) as [x s1]. rewrite IH.
    destruct (run os (k x) s1) as [[[a|] tr] s2]; [|reflexivity].
    destruct (run os (f a) s2) as [[o tr2] s3]. reflexivity.
Qed.

(** The pool tag is the four-character constant [' COL']. *)
Lemma TAG_LOC_characters :
  TAG_LOC = fold_left (fun tag c => tag * 256 + c) [32; 67; 79; 76] 0.
Proof. reflexivity. Qed.

Lemma along_app {T} (obs : Entry -> list T) tr1 tr2 :
  along obs (tr1 ++ tr2) = along obs tr1 ++ along obs tr2.
Proof. apply flat_map_app. Qed.

(** Destructs the answer of the kernel to the next call in the goal. *)
Ltac answer :=
  match goal with
  | |- context [let '(_, _) := ?os ?X ?e ?s in _] =>
      is_var os;
      let x := fresh "x" in
      let s' := fresh "s" in
      let E := fresh "E" in
      destruct (os X e s) as [x s'] eqn:E; cbn [fst snd] in *
  end.

(** Runs the program in the goal one call at a time, splitting on every
    test the program makes. *)
Ltac execute :=
  repeat (unfold wait_if_pending; cbn [run bind call negb];
          first
            [ answer
            | match goal with
              | |- context [if negb ?b then _ else _] => destruct b eqn:?
              | |- context [if ?b then _ else _] => destruct b eqn:?
              | |- context [match ?x with Some _ => _ | None => _ end] =>
                  destruct x eqn:?
              end ]).

(** Goals about lengths of concatenations. *)
Ltac lengths :=
  repeat (rewrite length_app || rewrite repeat_length);
  cbn [List.length]; lia.

(** ** What each routine leaves in the trace *)

Lemma pdo_run_summary St (os : Kernel St) s DeviceObject :
  let r := run os (USBPcapGetTargetDevicePdo DeviceObject) s in
  along conversion (trace_of r) = []
  /\ along connection_query (trace_of r) = []
  /\ along released (trace_of r) = []
  /\ match outcome_of r with
     | Returned (status, pdo) =>
         if NT_SUCCESS status
         then exists p, pdo = Some p /\ along acquired (trace_of r) = [p]
         else pdo = None /\ along acquired (trace_of r) = []
     | Crashed => True
     end.
Proof.
  unfold USBPcapGetTargetDevicePdo, outcome_of, trace_of.
  execute; cbn; unfold final_status;
    repeat match goal with
           | H : _ = _ |- _ => rewrite H
           end; cbn; repeat split; eauto; congruence.
Qed.

Lemma port_run_summary St (os : Kernel St) s pdo_device :
  let r := run os (USBPcapGetTargetDevicePort pdo_device) s in
  along connection_query (trace_of r) = []
  /\ along acquired (trace_of r) = []
  /\ along released (trace_of r) = []
  /\ match outcome_of r with
     | Returned (status, Some port) =>
         exists text, along conversion (trace_of r) = [(text, status, port)]
     | Returned (status, None) =>
         NT_SUCCESS status = false /\ along conversion (trace_of r) = []
     | Crashed => True
     end.
Proof.
  unfold USBPcapGetTargetDevicePort, outcome_of, trace_of.
  cbn [run bind call]. answer. destruct x as [[status0 length0] contents0].
  destruct (status0 =? STATUS_BUFFER_TOO_SMALL) eqn:Hs; cbn [negb].
  - cbn [run bind call]. answer. answer.
    destruct x0 as [[status1 length1] contents1].
    destruct (NT_SUCCESS status1) eqn:Hok; cbn [negb].
    + destruct (RtlInitUnicodeString _) as [Length|];
        [| cbn; repeat split; trivial].
      destruct (blank_until_hash _ _ _ _) as [[block idx]|];
        [| cbn; repeat split; trivial].
      destruct (store block idx L_space) as [block'|];
        [| cbn; repeat split; trivial].
      cbn [run bind call]. answer. destruct x0 as [status2 port].
      cbn [run bind call]. answer. cbn. repeat split; trivial. eauto.
    + cbn [run bind call]. answer. cbn. repeat split; trivial.
  - destruct (NT_SUCCESS status0) eqn:Hok; cbn; repeat split; trivial.
Qed.

Lemma node_run_summary St (os : Kernel St) s hub port info :
  let r := run os (USBPcapGetNodeInformation hub port info) s in
  along conversion (trace_of r) = []
  /\ along acquired (trace_of r) = []
  /\ along released (trace_of r) = []
  /\ exists status info',
       outcome_of r = Returned (status, info')
       /\ match along connection_query (trace_of r) with
          | [] => status = STATUS_INSUFFICIENT_RESOURCES
                  /\ info' = set_ConnectionIndex info port
          | [(hub', input, c)] =>
              hub' = hub /\ input = set_ConnectionIndex info port
              /\ status = final_status c /\ info' = Payload c
          | _ => False
          end.
Proof.
  unfold USBPcapGetNodeInformation, outcome_of, trace_of.
  execute; cbn; unfold final_status;
    repeat match goal with
           | H : _ = _ |- _ => rewrite H
           end; repeat split; eauto 10; congruence.
Qed.

(** ** The request bridge *)

(** C9: when the request object of a bridge operation (PDO query,
    port-count query, connection-information query) cannot be built, the
    operation returns [STATUS_INSUFFICIENT_RESOURCES] and the kernel has
    seen neither a dispatch nor a wait. *)
Theorem request_construction_failure_returns_at_once :
  forall St (os : Kernel St) s (op : BridgeOperation),
    let r := run os (bridge_status op) s in
    existsb irp_refused (trace_of r) = true ->
    outcome_of r = Returned STATUS_INSUFFICIENT_RESOURCES
    /\ existsb is_dispatch (trace_of r) = false
    /\ existsb is_wait (trace_of r) = false.
Proof.
  intros St os s op r. subst r. unfold outcome_of, trace_of.
  destruct op; unfold bridge_status, USBPcapGetTargetDevicePdo,
    USBPcapGetNumberOfPorts, USBPcapGetNodeInformation;
    execute; cbn; intros H; try discriminate H; auto.
Qed.

Lemma request_construction_failure_returns_at_once_witness :
  existsb irp_refused
    (trace_of (run (kernel_of (without_irps (healthy "Port_#0003.Hub_#0001")))
                   (bridge_status (ConnectionInfoQuery 5 3 no_info)) tt)) = true
  /\ outcome_of (run (kernel_of (without_irps (healthy "Port_#0003.Hub_#0001")))
                     (bridge_status (ConnectionInfoQuery 5 3 no_info)) tt)
     = Returned STATUS_INSUFFICIENT_RESOURCES.
Proof.
  split; [reflexivity |].
  apply (@request_construction_failure_returns_at_once unit
           (kernel_of (without_irps (healthy "Port_#0003.Hub_#0001"))) tt
           (ConnectionInfoQuery 5 3 no_info)).
  reflexivity.
Defined.

(** ** The two-phase location query *)

(** C5: when the first, zero-size location query answers anything other
    than [STATUS_BUFFER_TOO_SMALL], [USBPcapGetTargetDevicePort] returns
    an error: a failing status unchanged, a success turned into
    [STATUS_INVALID_DEVICE_REQUEST]; nothing is stored through [port],
    nothing is allocated and no second query is made. *)
Theorem first_phase_other_than_too_small_is_error :
  forall St (os : Kernel St) s pdo_device status,
    let r := run os (USBPcapGetTargetDevicePort pdo_device) s in
    hd_error (along property_query (trace_of r)) = Some (0, None, status) ->
    status <> STATUS_BUFFER_TOO_SMALL ->
    let result := if NT_SUCCESS status then STATUS_INVALID_DEVICE_REQUEST
                  else status in
    outcome_of r = Returned (result, None)
    /\ NT_SUCCESS result = false
    /\ along property_query (trace_of r) = [(0, None, status)]
    /\ along allocation (trace_of r) = []
    /\ List.length (trace_of r) = 1%nat.
Proof.
  intros St os s pdo_device status r Hfirst Hne result.
  subst r result. revert Hfirst.
  unfold USBPcapGetTargetDevicePort, outcome_of, trace_of.
  cbn [run bind call]. answer.
  destruct x as [[status0 length0] contents0].
  destruct (run os _ s0) as [[o tr] s1] eqn:Hrest.
  cbn. intros H. injection H as H. subst status0.
  apply Z.eqb_neq in Hne. rewrite Hne in Hrest.
  destruct (NT_SUCCESS status) eqn:Hok; cbn in Hrest;
    injection Hrest as <- <- <-; repeat split; trivial.
Qed.

Lemma first_phase_other_than_too_small_is_error_witness :
  let sc := with_probe (healthy "Port_#0003.Hub_#0001") STATUS_SUCCESS 42 in
  let r := run (kernel_of sc) (USBPcapGetTargetDevicePort 77) tt in
  hd_error (along property_query (trace_of r)) = Some (0, None, STATUS_SUCCESS)
  /\ STATUS_SUCCESS <> STATUS_BUFFER_TOO_SMALL
  /\ outcome_of r = Returned (STATUS_INVALID_DEVICE_REQUEST, None).
Proof.
  split; [reflexivity | split; [discriminate |]].
  apply (@first_phase_other_than_too_small_is_error unit
           (kernel_of (with_probe (healthy "Port_#0003.Hub_#0001")
                                  STATUS_SUCCESS 42))
           tt 77 STATUS_SUCCESS); [reflexivity | discriminate].
Defined.

(** C10: the block asked from the pool for the second location query is
    used unchecked.  When the allocation answers NULL, the routine still
    makes the second query, with the NULL buffer and the full length; if
    that query reports success the routine then accesses [location[0]]
    through NULL, and if it reports failure NULL goes to [ExFreePool]. *)
Theorem failed_allocation_is_not_checked :
  forall St (os : Kernel St) s pdo_device length,
    let r := run os (USBPcapGetTargetDevicePort pdo_device) s in
    along allocation (trace_of r) = [(length, None)] ->
    exists status,
      along property_query (trace_of r)
      = [(0, None, STATUS_BUFFER_TOO_SMALL); (length, None, status)]
      /\ (NT_SUCCESS status = true ->
          outcome_of r = Crashed /\ along freed (trace_of r) = [])
      /\ (NT_SUCCESS status = false ->
          outcome_of r = Returned (status, None)
          /\ along freed (trace_of r) = [None]).
Proof.
  intros St os s pdo_device length r. subst r.
  unfold USBPcapGetTargetDevicePort, outcome_of, trace_of.
  cbn [run bind call]. answer. destruct x as [[status0 length0] contents0].
  destruct (status0 =? STATUS_BUFFER_TOO_SMALL) eqn:Hs; cbn [negb].
  - apply Z.eqb_eq in Hs. subst status0.
    cbn [run bind call]. answer. answer.
    destruct x0 as [[status1 length1] contents1].
    destruct x as [location|].
    + destruct (run os _ s2) as [[o tr] s3]. cbn. discriminate.
    + destruct (NT_SUCCESS status1) eqn:Hok; cbn [negb option_map].
      * cbn. intros H. injection H as <-. exists status1.
        rewrite Hok. repeat split; trivial; discriminate.
      * cbn [run bind call]. answer. cbn. intros H. injection H as <-.
        exists status1. rewrite Hok. repeat split; trivial; discriminate.
  - destruct (NT_SUCCESS status0); cbn; discriminate.
Qed.

Lemma failed_allocation_is_not_checked_witness :
  along allocation
    (trace_of (run (kernel_of (without_pool (healthy "Port_#0003.Hub_#0001")))
                   (USBPcapGetTargetDevicePort 77) tt))
  = [(42, None)]
  /\ outcome_of (run (kernel_of (without_pool (healthy "Port_#0003.Hub_#0001")))
                     (USBPcapGetTargetDevicePort 77) tt)
     = Crashed.
Proof.
  split; [reflexivity |].
  destruct (@failed_allocation_is_not_checked unit
              (kernel_of (without_pool (healthy "Port_#0003.Hub_#0001")))
              tt 77 42 eq_refl) as [status [Hq [Hok _]]].
  injection Hq as <-. apply Hok. reflexivity.
Defined.

(** ** Hub queries *)

(** C6: [USBPcapGetNumberOfPorts] dispatches at most one request.  When
    none is dispatched (the request could not be built) it returns
    [STATUS_INSUFFICIENT_RESOURCES] and stores no count.  Otherwise the
    one request is a node-information request sent to [parent] with
    [NodeType] set to [UsbHub]; the routine returns the final status of
    that request unchanged; with a success it stores the hub
    descriptor's [bNumberOfPorts] when the node type reported is
    [UsbHub] and [NumberOfInterfaces] otherwise; with a failure it
    stores nothing. *)
Theorem port_count_follows_node_type :
  forall St (os : Kernel St) s parent info,
    let r := run os (USBPcapGetNumberOfPorts parent info) s in
    (along dispatched (trace_of r) = []
     /\ outcome_of r = Returned (STATUS_INSUFFICIENT_RESOURCES, None))
    \/ exists c,
         along node_request (trace_of r)
         = [(parent, set_NodeType info UsbHub, c)]
         /\ along dispatched (trace_of r)
            = [(Returned_Status c, final_status c)]
         /\ outcome_of r =
            Returned
              (final_status c,
               if NT_SUCCESS (final_status c) then
                 Some (if NodeType (Payload c) =? UsbHub
                       then u_HubInformation_HubDescriptor_bNumberOfPorts
                              (Payload c)
                       else u_MiParentInformation_NumberOfInterfaces
                              (Payload c))
               else None).
Proof.
  intros St os s parent info r. subst r.
  unfold USBPcapGetNumberOfPorts, outcome_of, trace_of.
  execute; cbn;
    first
      [ left; split; reflexivity
      | right; eexists; split; [reflexivity |];
        unfold final_status;
        repeat match goal with
               | H : _ = _ |- _ => rewrite H
               end;
        split; reflexivity ].
Qed.

Lemma port_count_follows_node_type_witness :
  outcome_of (run (kernel_of (with_node_information
                                (healthy "Port_#0003.Hub_#0001")
                                composite_parent))
                  (USBPcapGetNumberOfPorts 5 no_node_info) tt)
  = Returned (STATUS_SUCCESS, Some 3)
  /\ along dispatched
       (trace_of (run (kernel_of (with_node_information
                                    (healthy "Port_#0003.Hub_#0001")
                                    composite_parent))
                      (USBPcapGetNumberOfPorts 5 no_node_info) tt))
     = [(STATUS_PENDING, STATUS_SUCCESS)].
Proof.
  destruct (port_count_follows_node_type unit
              (kernel_of (with_node_information
                            (healthy "Port_#0003.Hub_#0001")
                            composite_parent))
              tt 5 no_node_info) as [[Hnone _] | (c & Hreq & Hdis & Hout)].
  - discriminate Hnone.
  - injection Hreq as <-. split; [exact Hout | exact Hdis].
Defined.

(** C7, as the code has it: [USBPcapGetNodeInformation] stores the port
    in [ConnectionIndex] of the caller's record before anything else and
    never undoes it.  When the call ends with a non-success status the
    record is the caller's with [ConnectionIndex] set to the port if the
    request was never dispatched, and otherwise what the completion of
    the hub's request left in the buffer; the routine writes nothing
    else into it. *)
Theorem connection_record_after_failure :
  forall St (os : Kernel St) s hub port info status info',
    let r := run os (USBPcapGetNodeInformation hub port info) s in
    outcome_of r = Returned (status, info') ->
    NT_SUCCESS status = false ->
    (along connection_query (trace_of r) = []
     /\ status = STATUS_INSUFFICIENT_RESOURCES
     /\ info' = set_ConnectionIndex info port)
    \/ (exists c,
          along connection_query (trace_of r)
          = [(hub, set_ConnectionIndex info port, c)]
          /\ status = final_status c
          /\ info' = Payload c).
Proof.
  intros St os s hub port info status info' r Hret Hfail.
  destruct (node_run_summary St os s hub port info)
    as (_ & _ & _ & st & inf & Hout & Hquery).
  fold r in Hout, Hquery. rewrite Hout in Hret. injection Hret as -> ->.
  destruct (along connection_query (trace_of r))
    as [|[[hub' input] c] [|? ?]]; try contradiction.
  - left. destruct Hquery as (-> & ->). repeat split.
  - right. destruct Hquery as (-> & -> & -> & ->). exists c. repeat split.
Qed.

Lemma connection_record_after_failure_witness :
  outcome_of (run (kernel_of (without_irps (healthy "Port_#0003.Hub_#0001")))
                  (USBPcapGetNodeInformation 5 3 no_info) tt)
  = Returned (STATUS_INSUFFICIENT_RESOURCES, set_ConnectionIndex no_info 3)
  /\ NT_SUCCESS STATUS_INSUFFICIENT_RESOURCES = false
  /\ ((along connection_query
         (trace_of (run (kernel_of (without_irps (healthy "Port_#0003.Hub_#0001")))
                        (USBPcapGetNodeInformation 5 3 no_info) tt))
       = []
       /\ STATUS_INSUFFICIENT_RESOURCES = STATUS_INSUFFICIENT_RESOURCES
       /\ set_ConnectionIndex no_info 3 = set_ConnectionIndex no_info 3)
      \/ (exists c,
            along connection_query
              (trace_of (run (kernel_of (without_irps (healthy "Port_#0003.Hub_#0001")))
                             (USBPcapGetNodeInformation 5 3 no_info) tt))
            = [(5, set_ConnectionIndex no_info 3, c)]
            /\ STATUS_INSUFFICIENT_RESOURCES = final_status c
            /\ set_ConnectionIndex no_info 3 = Payload c)).
Proof.
  split; [reflexivity |]. split; [reflexivity |].
  apply (connection_record_after_failure unit
           (kernel_of (without_irps (healthy "Port_#0003.Hub_#0001")))
           tt 5 3 no_info STATUS_INSUFFICIENT_RESOURCES
           (set_ConnectionIndex no_info 3) eq_refl eq_refl).
Defined.

(** C7 as stated fails: when the request cannot be built the call
    returns [STATUS_INSUFFICIENT_RESOURCES], and the caller's record,
    which held port index 0, now holds port index 3. *)
Lemma failed_query_has_written_the_record :
  exists status info',
    outcome_of (run (kernel_of (without_irps (healthy "Port_#0003.Hub_#0001")))
                    (USBPcapGetNodeInformation 5 3 no_info) tt)
    = Returned (status, info')
    /\ NT_SUCCESS status = false
    /\ ConnectionIndex no_info = 0
    /\ ConnectionIndex info' = 3
    /\ info' <> no_info.
Proof.
  exists STATUS_INSUFFICIENT_RESOURCES, (set_ConnectionIndex no_info 3).
  repeat split. discriminate.
Qed.

(** ** The blanking loop *)

Lemma update_length cells n v cells' :
  update cells n v = Some cells' -> List.length cells' = List.length cells.
Proof.
  revert n cells'. induction cells as [|c rest IH]; intros [|n] cells' H;
    simpl in H; try discriminate.
  - injection H as <-. reflexivity.
  - destruct (update rest n v) as [rest'|] eqn:E; simpl in H; [|discriminate].
    injection H as <-. simpl. f_equal. eauto.
Qed.

Lemma update_middle (done : Block) c rest v :
  update (done ++ c :: rest) (List.length done) v = Some (done ++ v :: rest).
Proof.
  induction done as [|d done IH]; simpl; [reflexivity|].
  rewrite IH. reflexivity.
Qed.

Lemma load_middle (done : Block) c rest :
  load (Some (done ++ c :: rest)) (Z.of_nat (List.length done)) = Some c.
Proof.
  unfold load. rewrite Nat2Z.id, nth_error_app2 by lia.
  rewrite Nat.sub_diag. reflexivity.
Qed.

Lemma store_middle (done : Block) c rest v :
  store (Some (done ++ c :: rest)) (Z.of_nat (List.length done)) v
  = Some (Some (done ++ v :: rest)).
Proof.
  unfold store. rewrite Nat2Z.id, update_middle. reflexivity.
Qed.

(** The loop never stops for lack of iterations: one more than the
    cells still ahead is as good as any larger bound. *)
Lemma blank_until_hash_fuel fuel cells idx length :
  0 <= idx ->
  (List.length cells <= fuel + Z.to_nat idx)%nat ->
  blank_until_hash (S fuel) (Some cells) idx length
  = blank_until_hash fuel (Some cells) idx length.
Proof.
  revert cells idx. induction fuel as [|fuel IH]; intros cells idx Hidx Hlen.
  - cbn [blank_until_hash]. unfold load.
    rewrite (proj2 (nth_error_None cells (Z.to_nat idx))) by lia.
    reflexivity.
  - cbn [blank_until_hash].
    destruct (load (Some cells) idx) as [c|]; [|reflexivity].
    destruct (negb (c =? L_hash) && (idx <? length)); [|reflexivity].
    destruct (store (Some cells) idx L_space) as [[cells'|]|] eqn:Hst;
      try reflexivity.
    + apply IH; [lia|].
      unfold store in Hst.
      destruct (update cells (Z.to_nat idx) L_space) as [cells''|] eqn:Hu;
        simpl in Hst; [|discriminate].
      injection Hst as <-. rewrite (update_length _ _ _ _ Hu).
      rewrite Z2Nat.inj_add by lia. simpl. lia.
    + unfold store in Hst.
      destruct (update cells (Z.to_nat idx) L_space); discriminate.
Qed.

Lemma blank_until_hash_enough cells length more :
  blank_until_hash (S (List.length cells) + more) (Some cells) 0 length
  = blank_until_hash (S (List.length cells)) (Some cells) 0 length.
Proof.
  induction more as [|more IH].
  - rewrite Nat.add_0_r. reflexivity.
  - rewrite Nat.add_succ_r, blank_until_hash_fuel by lia. exact IH.
Qed.

(** With a [#] in the block and the bound not reached before it, the loop
    blanks everything before the [#] and stops on it. *)
Lemma blank_until_hash_found (pre done post : Block) fuel length :
  Forall (fun c => c <> L_hash) pre ->
  Z.of_nat (List.length done + List.length pre) <= length ->
  (List.length pre <= fuel)%nat ->
  blank_until_hash fuel (Some (done ++ pre ++ L_hash :: post))
                   (Z.of_nat (List.length done)) length
  = Some (Some (done ++ repeat L_space (List.length pre) ++ L_hash :: post),
          Z.of_nat (List.length done + List.length pre)).
Proof.
  revert done fuel.
  induction pre as [|c pre IH]; intros done fuel Hpre Hlen Hfuel.
  - simpl. rewrite Nat.add_0_r.
    destruct fuel; cbn [blank_until_hash]; rewrite load_middle;
      unfold L_hash; rewrite Z.eqb_refl; reflexivity.
  - inversion Hpre as [|? ? Hc Hpre']; subst.
    destruct fuel as [|fuel]; [simpl in Hfuel; lia|].
    cbn [blank_until_hash]. simpl app. rewrite load_middle.
    apply Z.eqb_neq in Hc. rewrite Hc.
    assert (Hlt : (Z.of_nat (List.length done) <? length) = true).
    { apply Z.ltb_lt. simpl in Hlen. lia. }
    rewrite Hlt. cbn [negb andb]. rewrite store_middle.
    replace (Z.of_nat (List.length done) + 1)
      with (Z.of_nat (List.length (done ++ [L_space])))
      by (rewrite length_app; simpl; lia).
    replace (done ++ L_space :: pre ++ L_hash :: post)
      with ((done ++ [L_space]) ++ pre ++ L_hash :: post)
      by (rewrite <- app_assoc; reflexivity).
    rewrite IH; trivial.
    + rewrite <- app_assoc. simpl. rewrite length_app. simpl.
      do 3 f_equal. lia.
    + rewrite length_app. simpl in *. lia.
    + simpl in Hfuel. lia.
Qed.

(** ** The port parser *)

Lemma blanked_through_hash (pre post : Block) Length :
  unicode_text Length
    (Some (repeat L_space (List.length pre) ++ L_space :: post))
  = blanked_text (pre ++ L_hash :: post) (S (List.length pre)) Length.
Proof.
  unfold unicode_text, blanked_text. f_equal.
  replace (skipn (S (List.length pre)) (pre ++ L_hash :: post)) with post.
  - change (L_space :: post) with ([L_space] ++ post).
    rewrite app_assoc, <- repeat_cons. reflexivity.
  - change (L_hash :: post) with ([L_hash] ++ post).
    rewrite app_assoc, skipn_app.
    assert (Hl : List.length (pre ++ [L_hash]) = S (List.length pre))
      by (rewrite length_app; simpl; lia).
    rewrite Hl, Nat.sub_diag, skipn_all2 by lia. reflexivity.
Qed.

(** When the property buffer holds a [#] that the loop reaches, the
    routine goes as far as the integer conversion, hands it the text
    blanked through that [#], and returns what the conversion answers. *)
Lemma port_parse_reaches_conversion :
  forall St (os : Kernel St) s pdo_device pre post length Length,
    let r := run os (USBPcapGetTargetDevicePort pdo_device) s in
    along property_buffer (trace_of r) = [(pre ++ L_hash :: post, length)] ->
    Forall (fun c => c <> L_hash) pre ->
    Z.of_nat (List.length pre) <= length ->
    RtlInitUnicodeString (Some (pre ++ L_hash :: post)) = Some Length ->
    exists status port,
      along conversion (trace_of r)
      = [(blanked_text (pre ++ L_hash :: post) (S (List.length pre)) Length,
          status, port)]
      /\ outcome_of r = Returned (status, Some port).
Proof.
  intros St os s pdo_device pre post length Length r Hbuf Hpre Hlen Hinit.
  subst r. revert Hbuf.
  unfold USBPcapGetTargetDevicePort, outcome_of, trace_of.
  cbn [run bind call]. answer. destruct x as [[status0 length0] contents0].
  destruct (status0 =? STATUS_BUFFER_TOO_SMALL) eqn:Hs; cbn [negb];
    [| destruct (NT_SUCCESS status0); cbn; discriminate].
  cbn [run bind call]. answer. answer.
  destruct x0 as [[status1 length1] contents1].
  destruct x as [location|].
  2:{ destruct (run os _ s2) as [[o tr] s3] eqn:Hrest. cbn.
      destruct (NT_SUCCESS status1); cbn [negb option_map] in Hrest.
      - cbn in Hrest. injection Hrest as <- <- <-. discriminate.
      - cbn [run bind call] in Hrest. revert Hrest. answer.
        intros Hrest. cbn in Hrest. injection Hrest as <- <- <-. discriminate. }
  destruct (NT_SUCCESS status1) eqn:Hok; cbn [negb option_map].
  2:{ cbn [run bind call]. answer. cbn. rewrite Hok. discriminate. }
  destruct (run os _ s2) as [[o tr] s3] eqn:Hrest.
  cbn. rewrite Hok. cbn. intros Hbuf. injection Hbuf as Hcells Hlength Htail.
  subst length1. revert Hrest. unfold Block in *. rewrite Hcells, Hinit.
  cbn [block_size].
  rewrite (blank_until_hash_found pre [] post _ length); trivial;
    [| rewrite length_app; simpl; lia].
  cbn [List.length Nat.add app].
  change (Some (repeat L_space (List.length pre) ++ L_hash :: post))
    with (Some ([] ++ repeat L_space (List.length pre) ++ L_hash :: post)).
  rewrite app_assoc.
  replace (Z.of_nat (List.length pre))
    with (Z.of_nat (List.length ([] ++ repeat L_space (List.length pre))))
    by (simpl; rewrite repeat_length; reflexivity).
  rewrite store_middle. cbn [app].
  rewrite blanked_through_hash.
  cbn [run bind call]. answer. destruct x as [status2 port].
  cbn [run bind call]. answer.
  intros Hrest. injection Hrest as <- <- <-.
  exists status2, port. split; reflexivity.
Qed.

Lemma wcslen_terminated (text tail : Block) :
  Forall (fun c => c <> L_NUL) text ->
  wcslen (text ++ L_NUL :: tail) = Some (List.length text).
Proof.
  induction 1 as [|c text Hc _ IH]; simpl.
  - reflexivity.
  - apply Z.eqb_neq in Hc. rewrite Hc, IH. reflexivity.
Qed.

(** [RtlInitUnicodeString] on a terminated text that fits a
    [UNICODE_STRING]. *)
Lemma RtlInitUnicodeString_terminated (text tail : Block) :
  Forall (fun c => c <> L_NUL) text ->
  size_in_bytes text <= 65534 ->
  RtlInitUnicodeString (Some (text ++ L_NUL :: tail))
  = Some (sizeof_WCHAR * Z.of_nat (List.length text)).
Proof.
  intros Htext Hsize. unfold RtlInitUnicodeString.
  rewrite wcslen_terminated by assumption.
  unfold size_in_bytes, sizeof_WCHAR in *. f_equal. lia.
Qed.

Lemma blanked_text_terminated (pre post tail : Block) :
  blanked_text ((pre ++ L_hash :: post) ++ L_NUL :: tail)
               (S (List.length pre))
               (sizeof_WCHAR * Z.of_nat (List.length (pre ++ L_hash :: post)))
  = repeat L_space (S (List.length pre)) ++ post.
Proof.
  unfold blanked_text, sizeof_WCHAR.
  rewrite Z.mul_comm, Z.div_mul, Nat2Z.id by lia.
  replace (skipn (S (List.length pre))
                 ((pre ++ L_hash :: post) ++ L_NUL :: tail))
    with (post ++ L_NUL :: tail).
  - rewrite app_assoc. rewrite firstn_app.
    rewrite firstn_all2 by lengths.
    replace (List.length (pre ++ L_hash :: post) -
             List.length (repeat L_space (S (List.length pre)) ++ post))%nat
      with O by lengths.
    cbn [firstn]. apply app_nil_r.
  - rewrite <- app_assoc. cbn [app].
    change (L_hash :: post ++ L_NUL :: tail)
      with ([L_hash] ++ post ++ L_NUL :: tail).
    rewrite app_assoc.
    assert (Hl : List.length (pre ++ [L_hash]) = S (List.length pre))
      by (rewrite length_app; simpl; lia).
    rewrite <- Hl, skipn_app, Nat.sub_diag, skipn_all. reflexivity.
Qed.

(** *** The sample conversion on blanks followed by digits *)

Lemma wrapULONG_step total d :
  wrapULONG (wrapULONG total * 10 + d) = wrapULONG (total * 10 + d).
Proof.
  unfold wrapULONG.
  rewrite <- Zplus_mod_idemp_l, Zmult_mod_idemp_l, Zplus_mod_idemp_l.
  reflexivity.
Qed.

Lemma digit_of_decimal c :
  is_decimal_digit c = true -> Classic.digit_of c = c - 48 /\ 0 <= c - 48 < 10.
Proof.
  unfold is_decimal_digit, Classic.digit_of. intros H. rewrite H.
  apply andb_prop in H. destruct H as [H1 H2].
  apply Z.leb_le in H1. apply Z.leb_le in H2. split; [reflexivity | lia].
Qed.

Lemma digits_run ds rest total :
  Forall (fun c => is_decimal_digit c = true) ds ->
  ends_digit_run rest ->
  Classic.digits 10 (ds ++ rest) (wrapULONG total)
  = wrapULONG (fold_left (fun t c => t * 10 + (c - 48)) ds total).
Proof.
  intros Hds Hrest. revert total.
  induction Hds as [|d ds Hd _ IH]; intros total; simpl.
  - destruct rest as [|c rest]; [reflexivity|].
    simpl in *. rewrite Hrest. reflexivity.
  - destruct (digit_of_decimal d Hd) as [-> Hr].
    replace ((d - 48 <? 0) || (10 <=? d - 48)) with false
      by (symmetry; apply orb_false_intro; [apply Z.ltb_ge | apply Z.leb_gt]; lia).
    rewrite wrapULONG_step. apply IH.
Qed.

Lemma skip_blanks_repeat k s :
  Classic.skip_blanks (repeat L_space k ++ s) = Classic.skip_blanks s.
Proof. induction k; simpl; trivial. Qed.

Lemma digit_of_none c :
  Classic.digit_of c = -1 ->
  (c =? 98) = false /\ (c =? 111) = false /\ (c =? 120) = false.
Proof.
  unfold Classic.digit_of. intros H.
  destruct ((48 <=? c) && (c <=? 57)) eqn:H0.
  { apply andb_prop in H0. destruct H0 as [H1 H2].
    apply Z.leb_le in H1. apply Z.leb_le in H2. lia. }
  destruct ((65 <=? c) && (c <=? 90)) eqn:H1.
  { apply andb_prop in H1. destruct H1 as [H1 H2].
    apply Z.leb_le in H1. apply Z.leb_le in H2. lia. }
  destruct ((97 <=? c) && (c <=? 122)) eqn:H2.
  { apply andb_prop in H2. destruct H2 as [H2 H3].
    apply Z.leb_le in H2. apply Z.leb_le in H3. lia. }
  apply andb_false_iff in H2.
  repeat split; apply Z.eqb_neq; intros ->; destruct H2 as [H2|H2];
    discriminate H2.
Qed.

Lemma digit_not_prefix_letter c :
  is_decimal_digit c = true ->
  (c =? 98) = false /\ (c =? 111) = false /\ (c =? 120) = false.
Proof.
  unfold is_decimal_digit. intros H. apply andb_prop in H.
  destruct H as [H1 H2]. apply Z.leb_le in H1. apply Z.leb_le in H2.
  repeat split; apply Z.eqb_neq; lia.
Qed.

(** Blanks, then a run of decimal digits, then something that ends the
    run: the sample conversion succeeds with the value of the run. *)
Lemma classic_conversion_of_port k ds rest :
  ds <> [] ->
  Forall (fun c => is_decimal_digit c = true) ds ->
  ends_digit_run rest ->
  Classic.UnicodeStringToInteger (repeat L_space k ++ ds ++ rest) 0
  = (STATUS_SUCCESS, wrapULONG (decimal ds)).
Proof.
  intros Hne Hds Hrest. unfold Classic.UnicodeStringToInteger.
  rewrite skip_blanks_repeat.
  destruct ds as [|d ds]; [congruence|].
  inversion Hds as [|? ? Hd Hds']; subst.
  pose proof (digit_of_decimal d Hd) as [_ Hr].
  assert (Hskip : Classic.skip_blanks ((d :: ds) ++ rest) = (d :: ds) ++ rest).
  { simpl. replace (d <=? L_space) with false; trivial.
    symmetry. apply Z.leb_gt. unfold L_space. lia. }
  rewrite Hskip. simpl app. unfold Classic.sign.
  replace (d =? 43) with false by (symmetry; apply Z.eqb_neq; lia).
  replace (d =? 45) with false by (symmetry; apply Z.eqb_neq; lia).
  assert (Hprefix : Classic.prefix 0 (d :: ds ++ rest) = (10, d :: ds ++ rest)).
  { unfold Classic.prefix. simpl (0 =? 0).
    destruct (ds ++ rest) as [|c1 more] eqn:Hmore; [reflexivity|].
    assert (Hc1 : (c1 =? 98) = false /\ (c1 =? 111) = false
                  /\ (c1 =? 120) = false).
    { destruct ds as [|d1 ds1].
      - simpl in Hmore. subst rest. apply digit_of_none. exact Hrest.
      - simpl in Hmore. injection Hmore as <- _.
        apply digit_not_prefix_letter.
        inversion Hds' as [|? ? Hd1 _]. exact Hd1. }
    destruct Hc1 as (-> & -> & ->). rewrite !andb_false_r. reflexivity. }
  rewrite Hprefix. simpl negb.
  change (d :: ds ++ rest) with ((d :: ds) ++ rest).
  unfold decimal. rewrite <- (digits_run (d :: ds) rest 0) by assumption.
  reflexivity.
Qed.

(** Without a [#] anywhere in the block, and with a bound that is not
    below the number of cells, the loop leaves the block. *)
Lemma blank_until_hash_runs_off (cells done : Block) fuel length :
  Forall (fun c => c <> L_hash) cells ->
  Z.of_nat (List.length done + List.length cells) <= length ->
  blank_until_hash fuel (Some (done ++ cells)) (Z.of_nat (List.length done))
                   length
  = None.
Proof.
  revert done fuel.
  induction cells as [|c cells IH]; intros done fuel Hcells Hlen.
  - rewrite app_nil_r. destruct fuel; cbn [blank_until_hash]; unfold load;
      rewrite Nat2Z.id, (proj2 (nth_error_None done _)); trivial.
  - inversion Hcells as [|? ? Hc Hcells']; subst.
    apply Z.eqb_neq in Hc.
    assert (Hlt : (Z.of_nat (List.length done) <? length) = true)
      by (apply Z.ltb_lt; cbn [List.length] in Hlen; lia).
    destruct fuel as [|fuel]; cbn [blank_until_hash];
      rewrite load_middle, Hc, Hlt; cbn [negb andb]; [reflexivity|].
    rewrite store_middle.
    replace (Z.of_nat (List.length done) + 1)
      with (Z.of_nat (List.length (done ++ [L_space]))) by lengths.
    replace (done ++ L_space :: cells) with ((done ++ [L_space]) ++ cells)
      by (rewrite <- app_assoc; reflexivity).
    apply IH; trivial. cbn [List.length] in Hlen. lengths.
Qed.

(** X5: a property buffer without [#], with a reported length that is
    not below its number of cells (the length is in bytes, the cells are
    two bytes each): the routine accesses memory outside the block. *)
Lemma no_hash_leaves_the_block :
  forall St (os : Kernel St) s pdo_device cells length,
    let r := run os (USBPcapGetTargetDevicePort pdo_device) s in
    along property_buffer (trace_of r) = [(cells, length)] ->
    Forall (fun c => c <> L_hash) cells ->
    Z.of_nat (List.length cells) <= length ->
    outcome_of r = Crashed.
Proof.
  intros St os s pdo_device cells length r Hbuf Hcells Hlen.
  subst r. revert Hbuf.
  unfold USBPcapGetTargetDevicePort, outcome_of, trace_of.
  cbn [run bind call]. answer. destruct x as [[status0 length0] contents0].
  destruct (status0 =? STATUS_BUFFER_TOO_SMALL) eqn:Hs; cbn [negb];
    [| destruct (NT_SUCCESS status0); cbn; discriminate].
  cbn [run bind call]. answer. answer.
  destruct x0 as [[status1 length1] contents1].
  destruct x as [location|].
  2:{ destruct (run os _ s2) as [[o tr] s3] eqn:Hrest. cbn.
      destruct (NT_SUCCESS status1); cbn [negb option_map] in Hrest.
      - cbn in Hrest. injection Hrest as <- <- <-. discriminate.
      - cbn [run bind call] in Hrest. revert Hrest. answer.
        intros Hrest. cbn in Hrest. injection Hrest as <- <- <-. discriminate. }
  destruct (NT_SUCCESS status1) eqn:Hok; cbn [negb option_map].
  2:{ cbn [run bind call]. answer. cbn. rewrite Hok. discriminate. }
  destruct (run os _ s2) as [[o tr] s3] eqn:Hrest.
  cbn. rewrite Hok. cbn. intros Hbuf. injection Hbuf as Hfilled Hlength Htail.
  subst length1. revert Hrest. unfold Block in *. rewrite Hfilled.
  destruct (RtlInitUnicodeString (Some cells)).
  - rewrite (blank_until_hash_runs_off cells [] _ length); trivial.
    cbn. intros H. injection H as <- _ _. reflexivity.
  - cbn. intros H. injection H as <- _ _. reflexivity.
Qed.

(** C3, as the code has it: the routine makes no check of the format
    itself.  For a property buffer holding a [#] that the loop reaches,
    it returns exactly what [RtlUnicodeStringToInteger] answers for the
    text blanked through the first [#], status and value; it rejects the
    text precisely when that conversion reports a failure. *)
Theorem parse_status_is_conversion_status :
  forall St (os : Kernel St) s pdo_device pre post length Length,
    let r := run os (USBPcapGetTargetDevicePort pdo_device) s in
    along property_buffer (trace_of r) = [(pre ++ L_hash :: post, length)] ->
    Forall (fun c => c <> L_hash) pre ->
    Z.of_nat (List.length pre) <= length ->
    RtlInitUnicodeString (Some (pre ++ L_hash :: post)) = Some Length ->
    exists status port,
      along conversion (trace_of r)
      = [(blanked_text (pre ++ L_hash :: post) (S (List.length pre)) Length,
          status, port)]
      /\ outcome_of r = Returned (status, Some port)
      /\ (rejected r <-> NT_SUCCESS status = false).
Proof.
  intros St os s pdo_device pre post length Length r Hbuf Hpre Hlen Hinit.
  destruct (port_parse_reaches_conversion St os s pdo_device pre post length
              Length Hbuf Hpre Hlen Hinit) as (status & port & Hconv & Hout).
  exists status, port. repeat split; trivial.
  - intros (status' & a & Hret & Hfail). fold r in Hout.
    rewrite Hout in Hret. injection Hret as <- _. exact Hfail.
  - intros Hfail. exists status, (Some port). split; assumption.
Qed.

Lemma parse_status_is_conversion_status_witness :
  along property_buffer
    (trace_of (run (kernel_of (healthy "Port_#.Hub_#1"))
                   (USBPcapGetTargetDevicePort 77) tt))
  = [(L "Port_" ++ L_hash :: L ".Hub_#1" ++ [L_NUL], 28)]
  /\ Forall (fun c => c <> L_hash) (L "Port_")
  /\ Z.of_nat (List.length (L "Port_")) <= 28
  /\ RtlInitUnicodeString (Some (L "Port_" ++ L_hash :: L ".Hub_#1" ++ [L_NUL]))
     = Some 26
  /\ exists status port,
       along conversion
         (trace_of (run (kernel_of (healthy "Port_#.Hub_#1"))
                        (USBPcapGetTargetDevicePort 77) tt))
       = [(blanked_text (L "Port_" ++ L_hash :: L ".Hub_#1" ++ [L_NUL])
                        (S (List.length (L "Port_"))) 26,
           status, port)]
       /\ outcome_of (run (kernel_of (healthy "Port_#.Hub_#1"))
                          (USBPcapGetTargetDevicePort 77) tt)
          = Returned (status, Some port)
       /\ (rejected (run (kernel_of (healthy "Port_#.Hub_#1"))
                         (USBPcapGetTargetDevicePort 77) tt)
           <-> NT_SUCCESS status = false).
Proof.
  assert (Hpre : Forall (fun c => c <> L_hash) (L "Port_"))
    by (repeat constructor; discriminate).
  assert (Hlen : Z.of_nat (List.length (L "Port_")) <= 28)
    by (vm_compute; discriminate).
  do 4 (split; [first [assumption | reflexivity] |]).
  apply (parse_status_is_conversion_status unit
           (kernel_of (healthy "Port_#.Hub_#1")) tt 77
           (L "Port_") (L ".Hub_#1" ++ [L_NUL]) 28 26
           eq_refl Hpre Hlen eq_refl).
Defined.

(** C3 as stated fails: the location text [NoHashHere] holds no [#], and
    the routine does not return a failing status for it; it reads past
    the end of the 22-byte block at [location[11]]. *)
Lemma no_hash_is_not_rejected :
  along property_buffer
    (trace_of (run (kernel_of (healthy "NoHashHere"))
                   (USBPcapGetTargetDevicePort 77) tt))
  = [(L "NoHashHere" ++ [L_NUL], 22)]
  /\ existsb (Z.eqb L_hash) (L "NoHashHere") = false
  /\ outcome_of (run (kernel_of (healthy "NoHashHere"))
                     (USBPcapGetTargetDevicePort 77) tt)
     = Crashed
  /\ ~ rejected (run (kernel_of (healthy "NoHashHere"))
                     (USBPcapGetTargetDevicePort 77) tt).
Proof.
  repeat split.
  intros (status & a & Hret & _). vm_compute in Hret. discriminate Hret.
Qed.

(** Whether a text with a [#] but no digits after it is rejected is for
    the conversion to say.  On a kernel whose conversion takes an empty
    run of digits for 0, as [Classic.UnicodeStringToInteger] does, the
    text [Port_#.Hub_#1] gives port 0 with [STATUS_SUCCESS]. *)
Lemma digitless_text_under_classic_conversion :
  outcome_of (run (kernel_of (healthy "Port_#.Hub_#1"))
                  (USBPcapGetTargetDevicePort 77) tt)
  = Returned (STATUS_SUCCESS, Some 0).
Proof. reflexivity. Qed.

(** A conversion as it was called, without the base. *)
Lemma conversion_call_forgets_base tr :
  map (fun c => (fst (fst (fst c)), snd (fst c), snd c))
      (along conversion_call tr)
  = along conversion tr.
Proof.
  induction tr as [|[X e x] tr IH]; [reflexivity|].
  cbn [along flat_map]. rewrite map_app. f_equal; [| exact IH].
  revert x. destruct e; intros x; reflexivity.
Qed.

(** The port routine calls the conversion with base 0 and no other. *)
Lemma port_converts_in_base_zero St (os : Kernel St) s pdo_device o tr s' :
  run os (USBPcapGetTargetDevicePort pdo_device) s = (o, tr, s') ->
  Forall (fun c => snd (fst (fst c)) = 0) (along conversion_call tr).
Proof.
  unfold USBPcapGetTargetDevicePort.
  cbn [run bind call]. answer. destruct x as [[status0 length0] contents0].
  destruct (status0 =? STATUS_BUFFER_TOO_SMALL) eqn:Hs; cbn [negb].
  - cbn [run bind call]. answer. answer.
    destruct x0 as [[status1 length1] contents1].
    destruct (NT_SUCCESS status1) eqn:Hok; cbn [negb].
    + destruct (RtlInitUnicodeString _) as [Length|];
        [| intros H; injection H as <- <- <-; cbn; repeat constructor].
      destruct (blank_until_hash _ _ _ _) as [[block idx]|];
        [| intros H; injection H as <- <- <-; cbn; repeat constructor].
      destruct (store block idx L_space) as [block'|];
        [| intros H; injection H as <- <- <-; cbn; repeat constructor].
      cbn [run bind call]. answer. destruct x0 as [status2 port].
      cbn [run bind call]. answer.
      intros H; injection H as <- <- <-; cbn; repeat constructor.
    + cbn [run bind call]. answer.
      intros H; injection H as <- <- <-; cbn; repeat constructor.
  - destruct (NT_SUCCESS status0) eqn:Hok;
      intros H; injection H as <- <- <-; cbn; repeat constructor.
Qed.

Lemma conversion_call_in_base_zero tr text status port :
  along conversion tr = [(text, status, port)] ->
  Forall (fun c => snd (fst (fst c)) = 0) (along conversion_call tr) ->
  along conversion_call tr = [(text, 0, status, port)].
Proof.
  intros Hconv Hbase. rewrite <- conversion_call_forgets_base in Hconv.
  destruct (along conversion_call tr) as [|[[[t b] st] p] [|c more]];
    cbn in Hconv; try discriminate Hconv.
  injection Hconv as -> -> ->.
  inversion Hbase as [|? ? Hb _]. cbn in Hb. subst b. reflexivity.
Qed.

(** C4: for a location text [pre # digits rest], terminated, where [pre]
    holds no [#], [digits] is a non-empty run of decimal digits and
    [rest] is empty or starts like [.Hub_#YYYY], on a kernel whose
    conversion follows the documented format for the text and the base
    it is called with, the routine blanks everything through the first
    [#], calls the conversion once, with base 0, lets it stop at the
    first character after the digits, and returns [STATUS_SUCCESS] with
    the decimal value of the digits. *)
Theorem port_of_conforming_location :
  forall St (os : Kernel St) s pdo_device pre ds rest tail length,
    let r := run os (USBPcapGetTargetDevicePort pdo_device) s in
    along property_buffer (trace_of r)
    = [((pre ++ L_hash :: ds ++ rest) ++ L_NUL :: tail, length)] ->
    Forall (fun c => c <> L_hash) pre ->
    Forall (fun c => c <> L_NUL) (pre ++ L_hash :: ds ++ rest) ->
    ds <> [] ->
    Forall (fun c => is_decimal_digit c = true) ds ->
    ends_digit_run rest ->
    Z.of_nat (List.length pre) <= length ->
    size_in_bytes (pre ++ L_hash :: ds ++ rest) <= 65534 ->
    classic_conversions (trace_of r) ->
    outcome_of r = Returned (STATUS_SUCCESS, Some (wrapULONG (decimal ds)))
    /\ along conversion_call (trace_of r)
       = [(repeat L_space (S (List.length pre)) ++ ds ++ rest, 0,
           STATUS_SUCCESS, wrapULONG (decimal ds))].
Proof.
  intros St os s pdo_device pre ds rest tail length r
         Hbuf Hpre Hnul Hne Hds Hrest Hlen Hsize Hclassic.
  pose proof (RtlInitUnicodeString_terminated _ tail Hnul Hsize) as Hinit.
  assert (Hshape : (pre ++ L_hash :: ds ++ rest) ++ L_NUL :: tail
                   = pre ++ L_hash :: (ds ++ rest) ++ L_NUL :: tail)
    by (rewrite <- app_assoc; reflexivity).
  rewrite Hshape in Hbuf, Hinit.
  destruct (port_parse_reaches_conversion St os s pdo_device pre
              ((ds ++ rest) ++ L_NUL :: tail) length _ Hbuf Hpre Hlen Hinit)
    as (status & port & Hconv & Hout).
  fold r in Hconv, Hout. rewrite <- Hshape in Hconv.
  rewrite blanked_text_terminated in Hconv.
  assert (Hbase : Forall (fun c => snd (fst (fst c)) = 0)
                         (along conversion_call (trace_of r))).
  { subst r. destruct (run os (USBPcapGetTargetDevicePort pdo_device) s)
      as [[o tr] s'] eqn:Hrun.
    exact (port_converts_in_base_zero St os s pdo_device o tr s' Hrun). }
  pose proof (conversion_call_in_base_zero _ _ _ _ Hconv Hbase) as Hcall.
  unfold classic_conversions in Hclassic. rewrite Hcall in Hclassic.
  inversion Hclassic as [|? ? Hanswer _]. cbn [fst snd] in Hanswer.
  change (L_space :: repeat L_space (List.length pre) ++ ds ++ rest)
    with (repeat L_space (S (List.length pre)) ++ ds ++ rest) in Hanswer.
  rewrite classic_conversion_of_port in Hanswer by assumption.
  injection Hanswer as -> ->. split; [assumption|].
  exact Hcall.
Qed.

Lemma port_of_conforming_location_witness :
  along property_buffer
    (trace_of (run (kernel_of (healthy "Port_#0003.Hub_#0001"))
                   (USBPcapGetTargetDevicePort 77) tt))
  = [((L "Port_" ++ L_hash :: L "0003" ++ L ".Hub_#0001") ++ L_NUL :: [], 42)]
  /\ Forall (fun c => c <> L_hash) (L "Port_")
  /\ Forall (fun c => c <> L_NUL) (L "Port_" ++ L_hash :: L "0003" ++ L ".Hub_#0001")
  /\ L "0003" <> []
  /\ Forall (fun c => is_decimal_digit c = true) (L "0003")
  /\ ends_digit_run (L ".Hub_#0001")
  /\ Z.of_nat (List.length (L "Port_")) <= 42
  /\ size_in_bytes (L "Port_" ++ L_hash :: L "0003" ++ L ".Hub_#0001") <= 65534
  /\ classic_conversions
       (trace_of (run (kernel_of (healthy "Port_#0003.Hub_#0001"))
                      (USBPcapGetTargetDevicePort 77) tt))
  /\ outcome_of (run (kernel_of (healthy "Port_#0003.Hub_#0001"))
                     (USBPcapGetTargetDevicePort 77) tt)
     = Returned (STATUS_SUCCESS, Some 3)
  /\ along conversion_call
       (trace_of (run (kernel_of (healthy "Port_#0003.Hub_#0001"))
                      (USBPcapGetTargetDevicePort 77) tt))
     = [(L "      0003.Hub_#0001", 0, STATUS_SUCCESS, 3)].
Proof.
  assert (Hpre : Forall (fun c => c <> L_hash) (L "Port_"))
    by (repeat constructor; discriminate).
  assert (Hnul : Forall (fun c => c <> L_NUL)
                        (L "Port_" ++ L_hash :: L "0003" ++ L ".Hub_#0001"))
    by (repeat constructor; discriminate).
  assert (Hne : L "0003" <> []) by discriminate.
  assert (Hds : Forall (fun c => is_decimal_digit c = true) (L "0003"))
    by (repeat constructor).
  assert (Hrest : ends_digit_run (L ".Hub_#0001")) by reflexivity.
  assert (Hlen : Z.of_nat (List.length (L "Port_")) <= 42)
    by (vm_compute; discriminate).
  assert (Hsize : size_in_bytes (L "Port_" ++ L_hash :: L "0003" ++ L ".Hub_#0001")
                  <= 65534)
    by (vm_compute; discriminate).
  assert (Hclassic : classic_conversions
            (trace_of (run (kernel_of (healthy "Port_#0003.Hub_#0001"))
                           (USBPcapGetTargetDevicePort 77) tt)))
    by (repeat constructor).
  do 9 (split; [first [assumption | reflexivity] |]).
  exact (port_of_conforming_location unit
           (kernel_of (healthy "Port_#0003.Hub_#0001")) tt 77
           (L "Port_") (L "0003") (L ".Hub_#0001") [] 42
           eq_refl Hpre Hnul Hne Hds Hrest Hlen Hsize Hclassic).
Defined.

(** ** The address resolver *)

(** The run of the resolver in terms of the runs of the routines it
    calls. *)
Lemma resolve_run St (os : Kernel St) s hub device info :
  run os (USBPcapGetDeviceUSBAddress hub device info) s =
  match run os (USBPcapGetTargetDevicePdo device) s with
  | (Crashed, tr1, s1) => (Crashed, tr1, s1)
  | (Returned (status1, devicePdo), tr1, s1) =>
      if NT_SUCCESS status1 then
        match devicePdo with
        | None => (Crashed, tr1 ++ [], s1)
        | Some pdo =>
            match run os (USBPcapGetTargetDevicePort pdo) s1 with
            | (Crashed, tr2, s2) => (Crashed, tr1 ++ tr2, s2)
            | (Returned (status2, port), tr2, s2) =>
                let '(u, s3) := os _ (ObDereferenceObject pdo) s2 in
                let deref := Ev (ObDereferenceObject pdo) u in
                if NT_SUCCESS status2 then
                  match port with
                  | None => (Crashed, tr1 ++ tr2 ++ [deref], s3)
                  | Some port =>
                      match run os (USBPcapGetNodeInformation hub port info) s3 with
                      | (Crashed, tr3, s4) =>
                          (Crashed, tr1 ++ tr2 ++ [deref] ++ tr3, s4)
                      | (Returned (status3, info'), tr3, s4) =>
                          (Returned
                             (status3,
                              if NT_SUCCESS status3
                              then Some (DeviceAddress info') else None),
                           tr1 ++ tr2 ++ [deref] ++ tr3, s4)
                      end
                  end
                else (Returned (status2, None), tr1 ++ tr2 ++ [deref], s3)
            end
        end
      else (Returned (status1, None), tr1 ++ [], s1)
  end.
Proof.
  unfold USBPcapGetDeviceUSBAddress. rewrite run_bind.
  destruct (run os (USBPcapGetTargetDevicePdo device) s)
    as [[[[status1 devicePdo]|] tr1] s1]; [|reflexivity].
  destruct (NT_SUCCESS status1); cbn [negb]; [|reflexivity].
  destruct devicePdo as [pdo|]; [|reflexivity].
  rewrite run_bind.
  destruct (run os (USBPcapGetTargetDevicePort pdo) s1)
    as [[[[status2 port]|] tr2] s2]; [|reflexivity].
  cbn [run bind call]. answer.
  destruct (NT_SUCCESS status2); cbn [negb]; [|reflexivity].
  destruct port as [port|]; [|reflexivity].
  rewrite run_bind.
  destruct (run os (USBPcapGetNodeInformation hub port info) _)
    as [[[[status3 info']|] tr3] s3]; cbn.
  - destruct (NT_SUCCESS status3); cbn; rewrite ?app_nil_r; reflexivity.
  - reflexivity.
Qed.

(** X7: the resolver faults only where one of its first two steps does:
    in the PDO query, or in the port query made on the object that query
    returned with success.  The hub query and the resolver's own code
    never fault. *)
Lemma resolver_crash_origin St (os : Kernel St) s hub device info :
  outcome_of (run os (USBPcapGetDeviceUSBAddress hub device info) s) = Crashed ->
  outcome_of (run os (USBPcapGetTargetDevicePdo device) s) = Crashed
  \/ exists status pdo tr1 s1,
       run os (USBPcapGetTargetDevicePdo device) s
       = (Returned (status, Some pdo), tr1, s1)
       /\ NT_SUCCESS status = true
       /\ outcome_of (run os (USBPcapGetTargetDevicePort pdo) s1) = Crashed.
Proof.
  rewrite resolve_run.
  pose proof (pdo_run_summary St os s device) as Hpdo. cbv zeta in Hpdo.
  destruct (run os (USBPcapGetTargetDevicePdo device) s)
    as [[[[status1 devicePdo]|] tr1] s1]; [| left; reflexivity].
  cbn [outcome_of trace_of fst snd] in Hpdo.
  destruct Hpdo as (_ & _ & _ & Hacq).
  destruct (NT_SUCCESS status1) eqn:Hok1; [| discriminate].
  destruct Hacq as (pdo & -> & _).
  pose proof (port_run_summary St os s1 pdo) as Hport. cbv zeta in Hport.
  destruct (run os (USBPcapGetTargetDevicePort pdo) s1)
    as [[[[status2 port]|] tr2] s2] eqn:Erun2.
  - cbn [outcome_of trace_of fst snd] in Hport.
    destruct Hport as (_ & _ & _ & Hconv).
    destruct (os unit (ObDereferenceObject pdo) s2) as [u s3].
    destruct (NT_SUCCESS status2) eqn:Hok2; [| discriminate].
    destruct port as [port|]; [| destruct Hconv; congruence].
    destruct (node_run_summary St os s3 hub port info)
      as (_ & _ & _ & st & inf & Hout & _).
    destruct (run os (USBPcapGetNodeInformation hub port info) s3)
      as [[[[status3 info']|] tr3] s4]; [discriminate | discriminate Hout].
  - intros _. right. exists status1, pdo, tr1, s1.
    rewrite Erun2. repeat split; trivial.
Qed.

(** Splits the run of the resolver into the runs of its three steps and
    brings in what each step leaves in the trace. *)
Ltac resolver_steps St os s hub device info :=
  rewrite (resolve_run St os s hub device info);
  let P := fresh "Hpdo" in
  pose proof (pdo_run_summary St os s device) as P; cbv zeta in P;
  let E1 := fresh "Erun1" in
  destruct (run os (USBPcapGetTargetDevicePdo device) s)
    as [[[[?status1 ?devicePdo]|] ?tr1] ?s1] eqn:E1;
  cbn [outcome_of trace_of fst snd] in P;
  destruct P as (?Hconv1 & ?Hquery1 & ?Hrel1 & ?Hacq1);
  [ destruct (NT_SUCCESS status1) eqn:?Hok1;
    [ destruct Hacq1 as (?pdo & -> & ?Hacq1);
      let Q := fresh "Hport" in
      pose proof (port_run_summary St os s1 pdo) as Q; cbv zeta in Q;
      let E2 := fresh "Erun2" in
      destruct (run os (USBPcapGetTargetDevicePort pdo) s1)
        as [[[[?status2 ?port]|] ?tr2] ?s2] eqn:E2;
      cbn [outcome_of trace_of fst snd] in Q;
      destruct Q as (?Hquery2 & ?Hacq2 & ?Hrel2 & ?Hconv2);
      [ destruct (os unit (ObDereferenceObject pdo) s2) as [?u ?s3] eqn:?Ederef;
        destruct (NT_SUCCESS status2) eqn:?Hok2;
        [ destruct port as [?port|];
          [ destruct Hconv2 as (?text & ?Hconv2);
            let R := fresh "Hnode" in
            pose proof (node_run_summary St os s3 hub port info) as R;
            cbv zeta in R;
            let E3 := fresh "Erun3" in
            destruct (run os (USBPcapGetNodeInformation hub port info) s3)
              as [[[[?status3 ?info']|] ?tr3] ?s4] eqn:E3;
            cbn [outcome_of trace_of fst snd] in R;
            destruct R as (?Hconv3 & ?Hacq3 & ?Hrel3
                           & ?st & ?inf & ?Hout3 & ?Hquery3);
            [ injection Hout3 as <- <- | discriminate Hout3 ]
          | destruct Hconv2 as (?Hfail2 & _); congruence ]
        | ]
      | ]
    | destruct Hacq1 as (-> & ?Hacq1) ]
  | ];
  cbn [outcome_of trace_of fst snd];
  rewrite ?along_app, ?app_nil_r;
  repeat match goal with
         | H : along _ _ = _ |- _ => rewrite H
         end;
  cbn [along flat_map released acquired conversion connection_query app].

(** C1: when [USBPcapGetDeviceUSBAddress] returns, its result is that of
    the pipeline: the status of the first step that failed (PDO query,
    port query with its parse, hub query), with no address stored and no
    later step made, or else the hub query's status with the address
    taken from the record the hub returned; each step is run once.  With
    a success, the record is the [Payload] of the one connection request
    in the trace, which was sent for the port that the one conversion in
    the trace produced. *)
Theorem resolve_address_pipeline :
  forall St (os : Kernel St) s hub device info status address,
    let r := run os (USBPcapGetDeviceUSBAddress hub device info) s in
    outcome_of r = Returned (status, address) ->
    resolves os hub device info s (status, address) (trace_of r)
    /\ (NT_SUCCESS status = true ->
        exists text converted port c,
          along conversion (trace_of r) = [(text, converted, port)]
          /\ along connection_query (trace_of r)
             = [(hub, set_ConnectionIndex info port, c)]
          /\ status = final_status c
          /\ address = Some (DeviceAddress (Payload c)))
    /\ (NT_SUCCESS status = false -> address = None).
Proof.
  intros St os s hub device info status address r. subst r.
  resolver_steps St os s hub device info; intros Hret;
    try discriminate Hret; injection Hret as <- <-.
  - destruct (NT_SUCCESS status3) eqn:Hok3.
    + repeat split; [| | congruence].
      * eapply all_steps_succeed; eauto.
      * intros _.
        destruct (along connection_query tr3) as [|[[hub' input] c] [|? ?]];
          try contradiction.
        { destruct Hquery3 as (-> & _). discriminate Hok3. }
        destruct Hquery3 as (-> & -> & -> & ->). eauto 10.
    + repeat split; [| congruence].
      eapply hub_step_fails; eauto.
  - repeat split; [| congruence].
    eapply port_step_fails; eauto.
  - repeat split; [| congruence].
    eapply pdo_step_fails; eauto.
Qed.

Lemma resolve_address_pipeline_witness :
  outcome_of (run (kernel_of (healthy "Port_#0003.Hub_#0001"))
                  (USBPcapGetDeviceUSBAddress 5 6 no_info) tt)
  = Returned (STATUS_SUCCESS, Some 103)
  /\ exists text converted port c,
       along conversion
         (trace_of (run (kernel_of (healthy "Port_#0003.Hub_#0001"))
                        (USBPcapGetDeviceUSBAddress 5 6 no_info) tt))
       = [(text, converted, port)]
       /\ along connection_query
            (trace_of (run (kernel_of (healthy "Port_#0003.Hub_#0001"))
                           (USBPcapGetDeviceUSBAddress 5 6 no_info) tt))
          = [(5, set_ConnectionIndex no_info port, c)]
       /\ STATUS_SUCCESS = final_status c
       /\ Some 103 = Some (DeviceAddress (Payload c)).
Proof.
  split; [reflexivity |].
  apply (proj1 (proj2 (resolve_address_pipeline unit
                         (kernel_of (healthy "Port_#0003.Hub_#0001"))
                         tt 5 6 no_info STATUS_SUCCESS (Some 103) eq_refl))).
  reflexivity.
Defined.

(** C2: on every path by which [USBPcapGetDeviceUSBAddress] returns, the
    references handed to it equal the references it gave back: at most
    one device object is acquired, it is released once, and the
    reference count of every device object is back at its baseline. *)
Theorem pdo_references_balance :
  forall St (os : Kernel St) s hub device info result,
    let r := run os (USBPcapGetDeviceUSBAddress hub device info) s in
    outcome_of r = Returned result ->
    along released (trace_of r) = along acquired (trace_of r)
    /\ (List.length (along acquired (trace_of r)) <= 1)%nat
    /\ forall baseline pdo,
         reference_count baseline pdo (trace_of r) = baseline.
Proof.
  intros St os s hub device info result r. subst r.
  unfold reference_count.
  resolver_steps St os s hub device info; intros Hret;
    try discriminate Hret;
    (repeat split; [simpl; lia | intros; lia]).
Qed.

Lemma pdo_references_balance_witness :
  outcome_of (run (kernel_of (healthy "Port_#0003.Hub_#0001"))
                  (USBPcapGetDeviceUSBAddress 5 6 no_info) tt)
  = Returned (STATUS_SUCCESS, Some 103)
  /\ along released
       (trace_of (run (kernel_of (healthy "Port_#0003.Hub_#0001"))
                      (USBPcapGetDeviceUSBAddress 5 6 no_info) tt))
     = [77]
  /\ reference_count 1 77
       (trace_of (run (kernel_of (healthy "Port_#0003.Hub_#0001"))
                      (USBPcapGetDeviceUSBAddress 5 6 no_info) tt))
     = 1.
Proof.
  split; [reflexivity |]. split; [reflexivity |].
  apply (pdo_references_balance unit
           (kernel_of (healthy "Port_#0003.Hub_#0001"))
           tt 5 6 no_info (STATUS_SUCCESS, Some 103) eq_refl).
Defined.

(** C8, as the code has it: the port index sent to the hub is the value
    the integer conversion produced for the location text, whatever it
    is; no range check lies between the two.  Every connection request of
    a resolver call goes to [hub] and carries, as [ConnectionIndex], the
    value of the call's one conversion, which reported success. *)
Theorem hub_port_is_the_converted_value :
  forall St (os : Kernel St) s hub device info q,
    let r := run os (USBPcapGetDeviceUSBAddress hub device info) s in
    In q (along connection_query (trace_of r)) ->
    exists text converted port,
      along conversion (trace_of r) = [(text, converted, port)]
      /\ NT_SUCCESS converted = true
      /\ fst q = (hub, set_ConnectionIndex info port)
      /\ ConnectionIndex (snd (fst q)) = port
      /\ along connection_query (trace_of r) = [q].
Proof.
  intros St os s hub device info q r. subst r.
  resolver_steps St os s hub device info; intros Hin;
    try contradiction.
  destruct (along connection_query tr3) as [|[[hub' input] c] [|? ?]];
    try contradiction.
  destruct Hquery3 as (-> & -> & _ & _).
  destruct Hin as [<-|[]]. do 3 eexists.
  repeat split; try reflexivity. assumption.
Qed.

Lemma hub_port_is_the_converted_value_witness :
  In (5, set_ConnectionIndex no_info 3,
      hub_table (set_ConnectionIndex no_info 3))
     (along connection_query
        (trace_of (run (kernel_of (healthy "Port_#0003.Hub_#0001"))
                       (USBPcapGetDeviceUSBAddress 5 6 no_info) tt)))
  /\ exists text converted port,
       along conversion
         (trace_of (run (kernel_of (healthy "Port_#0003.Hub_#0001"))
                        (USBPcapGetDeviceUSBAddress 5 6 no_info) tt))
       = [(text, converted, port)]
       /\ NT_SUCCESS converted = true
       /\ 3 = port.
Proof.
  assert (Hin : In (5, set_ConnectionIndex no_info 3,
                    hub_table (set_ConnectionIndex no_info 3))
                   (along connection_query
                      (trace_of (run (kernel_of (healthy "Port_#0003.Hub_#0001"))
                                     (USBPcapGetDeviceUSBAddress 5 6 no_info) tt))))
    by (left; reflexivity).
  split; [exact Hin |].
  destruct (hub_port_is_the_converted_value unit
              (kernel_of (healthy "Port_#0003.Hub_#0001")) tt 5 6 no_info
              _ Hin) as (text & converted & port & Hc & Hok & _ & Hp & _).
  exists text, converted, port. repeat split; assumption.
Defined.

(** C8 as stated fails: for the location text [Port_#0000.Hub_#0001] the
    resolver asks the hub about port index 0. *)
Lemma port_zero_reaches_the_hub :
  map (fun q => ConnectionIndex (snd (fst q)))
      (along connection_query
         (trace_of (run (kernel_of (healthy "Port_#0000.Hub_#0001"))
                        (USBPcapGetDeviceUSBAddress 5 6 no_info) tt)))
  = [0]
  /\ ~ (forall q,
          In q (along connection_query
                  (trace_of (run (kernel_of (healthy "Port_#0000.Hub_#0001"))
                                 (USBPcapGetDeviceUSBAddress 5 6 no_info) tt))) ->
          1 <= ConnectionIndex (snd (fst q))).
Proof.
  split; [reflexivity |].
  intros H.
  specialize (H (5, set_ConnectionIndex no_info 0,
                 hub_table (set_ConnectionIndex no_info 0))
                (or_introl eq_refl)).
  cbn in H. lia.
Qed.

(** ** Further properties of the request routines *)





(** ** Further properties of the port parser *)

(** Closes the cases of [location_block_is_freed_once] once the trace is
    known. *)
Ltac pool_cases :=
  cbn; repeat split; trivial; try lia;
  try (intros ? ? []);
  try (intros ? ? [Heq|[]]);
  try contradiction;
  try (do 2 eexists; repeat split; congruence).

(** X3: [USBPcapGetTargetDevicePort] asks the pool at most once, only
    after the first location query answered [STATUS_BUFFER_TOO_SMALL],
    and gives the second query the size it asked the pool for.  On every
    path by which it returns it has handed to [ExFreePool], once, what
    the pool answered (NULL included); on a path that faults nothing is
    freed. *)
Theorem location_block_is_freed_once :
  forall St (os : Kernel St) s pdo_device,
    let r := run os (USBPcapGetTargetDevicePort pdo_device) s in
    (List.length (along allocation (trace_of r)) <= 1)%nat
    /\ (forall size block,
          In (size, block) (along allocation (trace_of r)) ->
          exists buffer status,
            hd_error (along property_query (trace_of r))
            = Some (0, buffer, status)
            /\ status = STATUS_BUFFER_TOO_SMALL
            /\ nth_error (map (fun q => fst (fst q))
                              (along property_query (trace_of r))) 1
               = Some size)
    /\ match outcome_of r with
       | Returned _ =>
           along freed (trace_of r) = map snd (along allocation (trace_of r))
       | Crashed => along freed (trace_of r) = []
       end.
Proof.
  intros St os s pdo_device r. subst r.
  unfold USBPcapGetTargetDevicePort, outcome_of, trace_of.
  cbn [run bind call]. answer. destruct x as [[status0 length0] contents0].
  destruct (status0 =? STATUS_BUFFER_TOO_SMALL) eqn:Hs; cbn [negb].
  - apply Z.eqb_eq in Hs. subst status0.
    cbn [run bind call]. answer. answer.
    destruct x0 as [[status1 length1] contents1].
    destruct (NT_SUCCESS status1) eqn:Hok; cbn [negb].
    + destruct (RtlInitUnicodeString _) as [Length|]; [| pool_cases].
      destruct (blank_until_hash _ _ _ _) as [[block idx]|]; [| pool_cases].
      destruct (store block idx L_space) as [block'|]; [| pool_cases].
      cbn [run bind call]. answer. destruct x0 as [status2 port].
      cbn [run bind call]. answer. pool_cases.
    + cbn [run bind call]. answer. pool_cases.
  - destruct (NT_SUCCESS status0) eqn:Hok; pool_cases.
Qed.

Lemma location_block_is_freed_once_witness :
  In (42, Some 4096)
     (along allocation
        (trace_of (run (kernel_of (healthy "Port_#0003.Hub_#0001"))
                       (USBPcapGetTargetDevicePort 77) tt)))
  /\ along freed
       (trace_of (run (kernel_of (healthy "Port_#0003.Hub_#0001"))
                      (USBPcapGetTargetDevicePort 77) tt))
     = [Some 4096]
  /\ exists buffer status,
       hd_error (along property_query
                   (trace_of (run (kernel_of (healthy "Port_#0003.Hub_#0001"))
                                  (USBPcapGetTargetDevicePort 77) tt)))
       = Some (0, buffer, status)
       /\ status = STATUS_BUFFER_TOO_SMALL
       /\ nth_error
            (map (fun q => fst (fst q))
                 (along property_query
                    (trace_of (run (kernel_of (healthy "Port_#0003.Hub_#0001"))
                                   (USBPcapGetTargetDevicePort 77) tt)))) 1
          = Some 42.
Proof.
  assert (Hin : In (42, Some 4096)
                   (along allocation
                      (trace_of (run (kernel_of (healthy "Port_#0003.Hub_#0001"))
                                     (USBPcapGetTargetDevicePort 77) tt))))
    by (left; reflexivity).
  split; [exact Hin |]. split; [reflexivity |].
  apply (proj1 (proj2 (location_block_is_freed_once unit
                         (kernel_of (healthy "Port_#0003.Hub_#0001")) tt 77))
               42 (Some 4096) Hin).
Defined.



Lemma no_hash_leaves_the_block_witness :
  along property_buffer
    (trace_of (run (kernel_of (healthy "NoHashHere"))
                   (USBPcapGetTargetDevicePort 77) tt))
  = [(L "NoHashHere" ++ [L_NUL], 22)]
  /\ Forall (fun c => c <> L_hash) (L "NoHashHere" ++ [L_NUL])
  /\ Z.of_nat (List.length (L "NoHashHere" ++ [L_NUL])) <= 22
  /\ outcome_of (run (kernel_of (healthy "NoHashHere"))
                     (USBPcapGetTargetDevicePort 77) tt)
     = Crashed.
Proof.
  assert (Hcells : Forall (fun c => c <> L_hash) (L "NoHashHere" ++ [L_NUL]))
    by (repeat constructor; discriminate).
  assert (Hlen : Z.of_nat (List.length (L "NoHashHere" ++ [L_NUL])) <= 22)
    by (vm_compute; discriminate).
  do 3 (split; [first [assumption | reflexivity] |]).
  apply (no_hash_leaves_the_block unit (kernel_of (healthy "NoHashHere"))
           tt 77 (L "NoHashHere" ++ [L_NUL]) 22 eq_refl Hcells Hlen).
Defined.

(** When the bound is reached before any [#], the loop stops on the cell
    at the bound. *)
Lemma blank_until_hash_bound (pre done post : Block) c fuel length :
  Forall (fun c => c <> L_hash) pre ->
  Z.of_nat (List.length done + List.length pre) = length ->
  (List.length pre <= fuel)%nat ->
  blank_until_hash fuel (Some (done ++ pre ++ c :: post))
                   (Z.of_nat (List.length done)) length
  = Some (Some (done ++ repeat L_space (List.length pre) ++ c :: post),
          Z.of_nat (List.length done + List.length pre)).
Proof.
  revert done fuel.
  induction pre as [|p pre IH]; intros done fuel Hpre Hlen Hfuel.
  - cbn [app repeat List.length]. rewrite Nat.add_0_r.
    assert (Hge : (Z.of_nat (List.length done) <? length) = false)
      by (apply Z.ltb_ge; cbn [List.length] in Hlen; lia).
    destruct fuel; cbn [blank_until_hash]; rewrite load_middle, Hge,
      andb_false_r; reflexivity.
  - apply Forall_cons_iff in Hpre. destruct Hpre as [Hp Hpre'].
    destruct fuel as [|fuel]; [cbn [List.length] in Hfuel; lia|].
    cbn [blank_until_hash app]. rewrite load_middle.
    apply Z.eqb_neq in Hp. rewrite Hp.
    assert (Hlt : (Z.of_nat (List.length done) <? length) = true)
      by (apply Z.ltb_lt; cbn [List.length] in Hlen; lia).
    rewrite Hlt. cbn [negb andb]. rewrite store_middle.
    replace (Z.of_nat (List.length done) + 1)
      with (Z.of_nat (List.length (done ++ [L_space]))) by lengths.
    replace (done ++ L_space :: pre ++ c :: post)
      with ((done ++ [L_space]) ++ pre ++ c :: post)
      by (rewrite <- app_assoc; reflexivity).
    rewrite IH; trivial.
    + rewrite <- app_assoc. cbn [app repeat List.length].
      rewrite length_app. cbn [List.length]. do 3 f_equal. lia.
    + cbn [List.length] in Hlen. rewrite length_app. cbn [List.length]. lia.
    + cbn [List.length] in Hfuel. lia.
Qed.

Lemma blanked_through_cell (pre post : Block) c Length :
  unicode_text Length
    (Some (repeat L_space (List.length pre) ++ L_space :: post))
  = blanked_text (pre ++ c :: post) (S (List.length pre)) Length.
Proof.
  unfold unicode_text, blanked_text. f_equal.
  replace (skipn (S (List.length pre)) (pre ++ c :: post)) with post.
  - change (L_space :: post) with ([L_space] ++ post).
    rewrite app_assoc, <- repeat_cons. reflexivity.
  - change (c :: post) with ([c] ++ post).
    rewrite app_assoc, skipn_app.
    assert (Hl : List.length (pre ++ [c]) = S (List.length pre)) by lengths.
    rewrite Hl, Nat.sub_diag, skipn_all2 by lia. reflexivity.
Qed.

(** X6: when the length the second query reports is reached before any
    [#], and lies inside the block, the loop stops there, but the cell at
    that index is blanked all the same: the text handed to the conversion
    has one more cell blanked than the bound allows, and the routine
    returns what the conversion answers. *)
Theorem bound_reached_blanks_one_more_cell :
  forall St (os : Kernel St) s pdo_device pre c post length Length,
    let r := run os (USBPcapGetTargetDevicePort pdo_device) s in
    along property_buffer (trace_of r) = [(pre ++ c :: post, length)] ->
    Forall (fun c => c <> L_hash) pre ->
    Z.of_nat (List.length pre) = length ->
    RtlInitUnicodeString (Some (pre ++ c :: post)) = Some Length ->
    exists status port,
      along conversion (trace_of r)
      = [(blanked_text (pre ++ c :: post) (S (List.length pre)) Length,
          status, port)]
      /\ outcome_of r = Returned (status, Some port).
Proof.
  intros St os s pdo_device pre c post length Length r Hbuf Hpre Hlen Hinit.
  subst r. revert Hbuf.
  unfold USBPcapGetTargetDevicePort, outcome_of, trace_of.
  cbn [run bind call]. answer. destruct x as [[status0 length0] contents0].
  destruct (status0 =? STATUS_BUFFER_TOO_SMALL) eqn:Hs; cbn [negb];
    [| destruct (NT_SUCCESS status0); cbn; discriminate].
  cbn [run bind call]. answer. answer.
  destruct x0 as [[status1 length1] contents1].
  destruct x as [location|].
  2:{ destruct (run os _ s2) as [[o tr] s3] eqn:Hrest. cbn.
      destruct (NT_SUCCESS status1); cbn [negb option_map] in Hrest.
      - cbn in Hrest. injection Hrest as <- <- <-. discriminate.
      - cbn [run bind call] in Hrest. revert Hrest. answer.
        intros Hrest. cbn in Hrest. injection Hrest as <- <- <-. discriminate. }
  destruct (NT_SUCCESS status1) eqn:Hok; cbn [negb option_map].
  2:{ cbn [run bind call]. answer. cbn. rewrite Hok. discriminate. }
  destruct (run os _ s2) as [[o tr] s3] eqn:Hrest.
  cbn. rewrite Hok. cbn. intros Hbuf. injection Hbuf as Hcells Hlength Htail.
  subst length1. revert Hrest. unfold Block in *. rewrite Hcells, Hinit.
  cbn [block_size].
  rewrite (blank_until_hash_bound pre [] post c _ length); trivial;
    [| rewrite length_app; cbn [List.length]; lia].
  cbn [List.length Nat.add app].
  change (Some (repeat L_space (List.length pre) ++ c :: post))
    with (Some ([] ++ repeat L_space (List.length pre) ++ c :: post)).
  rewrite app_assoc.
  replace (Z.of_nat (List.length pre))
    with (Z.of_nat (List.length ([] ++ repeat L_space (List.length pre))))
    by (cbn [app]; rewrite repeat_length; reflexivity).
  rewrite store_middle. cbn [app].
  rewrite (blanked_through_cell pre post c).
  cbn [run bind call]. answer. destruct x as [status2 port].
  cbn [run bind call]. answer.
  intros Hrest. injection Hrest as <- <- <-.
  exists status2, port. split; reflexivity.
Qed.

Lemma bound_reached_blanks_one_more_cell_witness :
  along property_buffer
    (trace_of (run (kernel_reporting (healthy "Port_#0003.Hub_#0001") 2)
                   (USBPcapGetTargetDevicePort 77) tt))
  = [(L "Po" ++ 114 :: (L "t_#0003.Hub_#0001" ++ [L_NUL]), 2)]
  /\ Forall (fun c => c <> L_hash) (L "Po")
  /\ Z.of_nat (List.length (L "Po")) = 2
  /\ RtlInitUnicodeString
       (Some (L "Po" ++ 114 :: (L "t_#0003.Hub_#0001" ++ [L_NUL])))
     = Some 40
  /\ exists status port,
       along conversion
         (trace_of (run (kernel_reporting (healthy "Port_#0003.Hub_#0001") 2)
                        (USBPcapGetTargetDevicePort 77) tt))
       = [(blanked_text (L "Po" ++ 114 :: (L "t_#0003.Hub_#0001" ++ [L_NUL]))
                        (S (List.length (L "Po"))) 40,
           status, port)]
       /\ outcome_of
            (run (kernel_reporting (healthy "Port_#0003.Hub_#0001") 2)
                 (USBPcapGetTargetDevicePort 77) tt)
          = Returned (status, Some port).
Proof.
  assert (Hpre : Forall (fun c => c <> L_hash) (L "Po"))
    by (repeat constructor; discriminate).
  do 4 (split; [first [assumption | reflexivity] |]).
  apply (bound_reached_blanks_one_more_cell unit
           (kernel_reporting (healthy "Port_#0003.Hub_#0001") 2) tt 77
           (L "Po") 114 (L "t_#0003.Hub_#0001" ++ [L_NUL]) 2 40
           eq_refl Hpre eq_refl eq_refl).
Defined.

Lemma resolver_crash_origin_witness :
  outcome_of (run (kernel_of (healthy "NoHashHere"))
                  (USBPcapGetDeviceUSBAddress 5 6 no_info) tt)
  = Crashed
  /\ (outcome_of (run (kernel_of (healthy "NoHashHere"))
                      (USBPcapGetTargetDevicePdo 6) tt)
      = Crashed
      \/ exists status pdo tr1 s1,
           run (kernel_of (healthy "NoHashHere"))
               (USBPcapGetTargetDevicePdo 6) tt
           = (Returned (status, Some pdo), tr1, s1)
           /\ NT_SUCCESS status = true
           /\ outcome_of (run (kernel_of (healthy "NoHashHere"))
                              (USBPcapGetTargetDevicePort pdo) s1)
              = Crashed).
Proof.
  split; [reflexivity |].
  apply (resolver_crash_origin unit (kernel_of (healthy "NoHashHere"))
           tt 5 6 no_info eq_refl).
Defined.

(** ** Who is asked what *)

Lemma pdo_asks_no_property St (os : Kernel St) s DeviceObject o tr s' :
  run os (USBPcapGetTargetDevicePdo DeviceObject) s = (o, tr, s') ->
  along queried tr = [] /\ along connection_build tr = [].
Proof.
  unfold USBPcapGetTargetDevicePdo.
  execute; intros H; injection H as <- <- <-; split; reflexivity.
Qed.

Lemma port_asks_its_device St (os : Kernel St) s pdo_device o tr s' :
  run os (USBPcapGetTargetDevicePort pdo_device) s = (o, tr, s') ->
  Forall (eq pdo_device) (along queried tr)
  /\ along connection_build tr = [].
Proof.
  unfold USBPcapGetTargetDevicePort.
  cbn [run bind call]. answer. destruct x as [[status0 length0] contents0].
  destruct (status0 =? STATUS_BUFFER_TOO_SMALL) eqn:Hs; cbn [negb].
  - cbn [run bind call]. answer. answer.
    destruct x0 as [[status1 length1] contents1].
    destruct (NT_SUCCESS status1) eqn:Hok; cbn [negb].
    + destruct (RtlInitUnicodeString _) as [Length|];
        [| intros H; injection H as <- <- <-; cbn; repeat constructor].
      destruct (blank_until_hash _ _ _ _) as [[block idx]|];
        [| intros H; injection H as <- <- <-; cbn; repeat constructor].
      destruct (store block idx L_space) as [block'|];
        [| intros H; injection H as <- <- <-; cbn; repeat constructor].
      cbn [run bind call]. answer. destruct x0 as [status2 port].
      cbn [run bind call]. answer.
      intros H; injection H as <- <- <-; cbn; repeat constructor.
    + cbn [run bind call]. answer.
      intros H; injection H as <- <- <-; cbn; repeat constructor.
  - destruct (NT_SUCCESS status0) eqn:Hok;
      intros H; injection H as <- <- <-; cbn; repeat constructor.
Qed.

Lemma node_asks_its_port St (os : Kernel St) s hub port info :
  exists irp status info' tr s',
    run os (USBPcapGetNodeInformation hub port info) s
    = (Returned (status, info'), tr, s')
    /\ along connection_build tr = [irp]
    /\ asked_ports tr = match irp with Some _ => [port] | None => [] end
    /\ along queried tr = [].
Proof.
  unfold USBPcapGetNodeInformation, asked_ports.
  execute; do 5 eexists; repeat split.
Qed.

Lemma count_asks_no_port St (os : Kernel St) s parent info o tr s' :
  run os (USBPcapGetNumberOfPorts parent info) s = (o, tr, s') ->
  along connection_build tr = [] /\ asked_ports tr = []
  /\ exists status count, o = Returned (status, count)
       /\ (NT_SUCCESS status = true -> count <> None).
Proof.
  unfold USBPcapGetNumberOfPorts, asked_ports.
  execute; intros H; injection H as <- <- <-; repeat split;
    do 2 eexists; split; try reflexivity;
    intros Hs; first [congruence | vm_compute in Hs; discriminate Hs].
Qed.

(** X11: every device whose location [USBPcapGetDeviceUSBAddress] asks
    for is the object the relations query returned, the one the call
    holds a reference on; the location of [device] itself, of [hub] or of
    any other object is never asked for. *)
Theorem location_is_read_from_the_acquired_pdo :
  forall St (os : Kernel St) s hub device info d,
    let r := run os (USBPcapGetDeviceUSBAddress hub device info) s in
    In d (along queried (trace_of r)) ->
    along acquired (trace_of r) = [d].
Proof.
  intros St os s hub device info d r. subst r.
  resolver_steps St os s hub device info;
    repeat match goal with
           | H : run os (USBPcapGetTargetDevicePdo _) _ = _ |- _ =>
               apply pdo_asks_no_property in H; destruct H as (? & _)
           | H : run os (USBPcapGetTargetDevicePort _) _ = _ |- _ =>
               apply port_asks_its_device in H; destruct H as (? & _)
           | H : run os (USBPcapGetNodeInformation ?h ?p ?i) ?s0 = _ |- _ =>
               let N := fresh "N" in
               destruct (node_asks_its_port St os s0 h p i)
                 as (? & ? & ? & ? & ? & N & _ & _ & ?);
               rewrite N in H; injection H as <- <- <- <-; clear N
           end;
    repeat match goal with
           | H : along queried _ = [] |- _ => rewrite H
           end;
    cbn [app queried along flat_map]; rewrite ?app_nil_r;
    try contradiction;
    intros Hin;
    match goal with
    | H : Forall (eq _) _ |- _ =>
        rewrite Forall_forall in H; rewrite <- (H _ Hin); reflexivity
    end.
Qed.

Lemma location_is_read_from_the_acquired_pdo_witness :
  In 77 (along queried
           (trace_of (run (kernel_of (healthy "Port_#0003.Hub_#0001"))
                          (USBPcapGetDeviceUSBAddress 5 6 no_info) tt)))
  /\ along acquired
       (trace_of (run (kernel_of (healthy "Port_#0003.Hub_#0001"))
                      (USBPcapGetDeviceUSBAddress 5 6 no_info) tt))
     = [77].
Proof.
  assert (Hin : In 77 (along queried
                         (trace_of (run (kernel_of (healthy "Port_#0003.Hub_#0001"))
                                        (USBPcapGetDeviceUSBAddress 5 6 no_info) tt))))
    by (left; reflexivity).
  split; [exact Hin |].
  apply (location_is_read_from_the_acquired_pdo unit
           (kernel_of (healthy "Port_#0003.Hub_#0001")) tt 5 6 no_info 77 Hin).
Defined.

(** ** The debug listing *)

Lemma asked_ports_app tr1 tr2 :
  asked_ports (tr1 ++ tr2) = asked_ports tr1 ++ asked_ports tr2.
Proof. unfold asked_ports. rewrite along_app, map_app. reflexivity. Qed.

Lemma built_indices_range answers idx :
  Forall (fun p => idx <= p < idx + Z.of_nat (List.length answers))
         (built_indices idx answers).
Proof.
  revert idx. induction answers as [|[irp|] answers IH]; intros idx;
    cbn [built_indices List.length].
  - constructor.
  - constructor; [lia|].
    eapply Forall_impl; [| apply (IH (idx + 1))]. cbn beta. intros p Hp. lia.
  - eapply Forall_impl; [| apply (IH (idx + 1))]. cbn beta. intros p Hp. lia.
Qed.

(** The loop over the indices [idx .. maxIndex], [n] of them, none of
    which is the largest [ULONG]: it ends, having built one request per
    index and dispatched those that were built, in order. *)
Lemma print_children_loop_ends St (os : Kernel St) hub maxIndex n :
  forall fuel idx info s,
    (n <= fuel)%nat ->
    0 <= idx ->
    maxIndex = idx + Z.of_nat n - 1 ->
    maxIndex < ULONG_MAX ->
    exists tr s',
      run os (print_children_loop fuel hub idx maxIndex info) s
      = (Returned true, tr, s')
      /\ List.length (along connection_build tr) = n
      /\ asked_ports tr = built_indices idx (along connection_build tr).
Proof.
  induction n as [|n IH]; intros fuel idx info s Hfuel Hidx Hmax Hlt.
  - assert (Hgt : (idx <=? maxIndex) = false) by (apply Z.leb_gt; lia).
    destruct fuel; cbn [print_children_loop]; rewrite Hgt;
      do 2 eexists; repeat split.
  - assert (Hle : (idx <=? maxIndex) = true) by (apply Z.leb_le; lia).
    destruct fuel as [|fuel]; [lia|].
    cbn [print_children_loop]. rewrite Hle, run_bind.
    destruct (node_asks_its_port St os s hub idx info)
      as (irp & status & info' & tr1 & s1 & Hrun & Hbuild & Hasked & _).
    rewrite Hrun.
    replace (wrapULONG (idx + 1)) with (idx + 1)
      by (unfold wrapULONG, ULONG_MAX in *; rewrite Z.mod_small; lia).
    destruct (IH fuel (idx + 1) info' s1) as (tr2 & s2 & Hloop & Hn & Hports);
      try lia.
    rewrite Hloop. do 2 eexists. split; [reflexivity|].
    rewrite along_app, asked_ports_app, Hbuild, Hasked, length_app, Hn, Hports.
    split; [reflexivity|].
    destruct irp; reflexivity.
Qed.

(** With the largest [ULONG] as [maxIndex] the test [idx <= maxIndex]
    never fails: whatever the bound, the loop is still asking. *)
Lemma print_children_loop_goes_on St (os : Kernel St) hub fuel :
  forall idx info s,
    0 <= idx <= ULONG_MAX ->
    exists tr s',
      run os (print_children_loop fuel hub idx ULONG_MAX info) s
      = (Returned false, tr, s')
      /\ List.length (along connection_build tr) = fuel.
Proof.
  induction fuel as [|fuel IH]; intros idx info s Hidx.
  - cbn [print_children_loop].
    replace (idx <=? ULONG_MAX) with true by (symmetry; apply Z.leb_le; lia).
    do 2 eexists. split; reflexivity.
  - cbn [print_children_loop].
    replace (idx <=? ULONG_MAX) with true by (symmetry; apply Z.leb_le; lia).
    rewrite run_bind.
    destruct (node_asks_its_port St os s hub idx info)
      as (irp & status & info' & tr1 & s1 & Hrun & Hbuild & _).
    rewrite Hrun.
    destruct (IH (wrapULONG (idx + 1)) info' s1) as (tr2 & s2 & Hloop & Hn).
    { unfold wrapULONG, ULONG_MAX.
      pose proof (Z.mod_pos_bound (idx + 1) 4294967296). lia. }
    rewrite Hloop. do 2 eexists. split; [reflexivity|].
    rewrite along_app, Hbuild, length_app, Hn. reflexivity.
Qed.

(** X8: when the port count cannot be had, the debug listing returns the
    status of the count and asks about no port at all. *)
Theorem listing_stops_when_count_fails :
  forall St (os : Kernel St) s fuel hub node_info info status count tr0 s0,
    run os (USBPcapGetNumberOfPorts hub node_info) s
    = (Returned (status, count), tr0, s0) ->
    NT_SUCCESS status = false ->
    let r := run os (USBPcapPrintUSBPChildrenInformation fuel hub node_info info) s in
    outcome_of r = Returned (Some status)
    /\ along connection_build (trace_of r) = []
    /\ asked_ports (trace_of r) = []
    /\ trace_of r = tr0.
Proof.
  intros St os s fuel hub node_info info status count tr0 s0 Hcount Hfail r.
  subst r. unfold USBPcapPrintUSBPChildrenInformation.
  rewrite run_bind, Hcount, Hfail. cbn.
  rewrite app_nil_r.
  destruct (count_asks_no_port St os s hub node_info _ _ _ Hcount)
    as (Hb & Ha & _).
  repeat split; assumption.
Qed.

Lemma listing_stops_when_count_fails_witness :
  run (kernel_of (without_irps (healthy "Port_#0003.Hub_#0001")))
      (USBPcapGetNumberOfPorts 5 no_node_info) tt
  = (Returned (STATUS_INSUFFICIENT_RESOURCES, None),
     [Ev KeInitializeEvent tt;
      Ev (IoBuildDeviceIoControlRequest IOCTL_USB_GET_NODE_INFORMATION 5) None],
     tt)
  /\ NT_SUCCESS STATUS_INSUFFICIENT_RESOURCES = false
  /\ outcome_of
       (run (kernel_of (without_irps (healthy "Port_#0003.Hub_#0001")))
            (USBPcapPrintUSBPChildrenInformation 8 5 no_node_info no_info) tt)
     = Returned (Some STATUS_INSUFFICIENT_RESOURCES).
Proof.
  split; [reflexivity |]. split; [reflexivity |].
  apply (proj1 (listing_stops_when_count_fails unit
                  (kernel_of (without_irps (healthy "Port_#0003.Hub_#0001")))
                  tt 8 5 no_node_info no_info
                  STATUS_INSUFFICIENT_RESOURCES None _ tt eq_refl eq_refl)).
Defined.

(** X9: with a port count [N] below the largest [ULONG], the debug
    listing ends and returns [STATUS_SUCCESS] whatever the hub answers
    about each port.  It builds one connection request per index
    [1 .. N]; the requests dispatched are those that could be built, with
    their own index, in increasing order; index 0 is never asked. *)
Theorem listing_asks_ports_one_to_count :
  forall St (os : Kernel St) s fuel hub node_info info status N tr0 s0,
    run os (USBPcapGetNumberOfPorts hub node_info) s
    = (Returned (status, Some N), tr0, s0) ->
    NT_SUCCESS status = true ->
    0 <= N < ULONG_MAX ->
    (Z.to_nat N <= fuel)%nat ->
    let r := run os (USBPcapPrintUSBPChildrenInformation fuel hub node_info info) s in
    outcome_of r = Returned (Some STATUS_SUCCESS)
    /\ Z.of_nat (List.length (along connection_build (trace_of r))) = N
    /\ asked_ports (trace_of r)
       = built_indices 1 (along connection_build (trace_of r))
    /\ Forall (fun p => 1 <= p <= N) (asked_ports (trace_of r)).
Proof.
  intros St os s fuel hub node_info info status N tr0 s0
         Hcount Hok HN Hfuel r.
  subst r. unfold USBPcapPrintUSBPChildrenInformation.
  rewrite run_bind, Hcount, Hok. cbn [negb]. rewrite run_bind.
  destruct (print_children_loop_ends St os hub N (Z.to_nat N)
              fuel 1 info s0) as (tr & s' & Hloop & Hn & Hports); try lia.
  rewrite Hloop. cbn [run outcome_of trace_of fst snd].
  rewrite app_nil_r.
  destruct (count_asks_no_port St os s hub node_info _ _ _ Hcount)
    as (Hb & Ha & _).
  rewrite along_app, asked_ports_app, Hb, Ha. cbn [app].
  assert (Hlen : Z.of_nat (List.length (along connection_build tr)) = N)
    by (rewrite Hn; lia).
  repeat split; trivial.
  rewrite Hports.
  eapply Forall_impl; [| apply built_indices_range]. cbn beta.
  intros p Hp. lia.
Qed.

Lemma listing_asks_ports_one_to_count_witness :
  run (kernel_of (healthy "Port_#0003.Hub_#0001"))
      (USBPcapGetNumberOfPorts 5 no_node_info) tt
  = (Returned (STATUS_SUCCESS, Some 4),
     [Ev KeInitializeEvent tt;
      Ev (IoBuildDeviceIoControlRequest IOCTL_USB_GET_NODE_INFORMATION 5)
         (Some 2);
      Ev (IoCallDriver 5 2
            (NodeInformationRequest (set_NodeType no_node_info UsbHub)))
         (node_information (healthy "Port_#0003.Hub_#0001"))],
     tt)
  /\ NT_SUCCESS STATUS_SUCCESS = true
  /\ 0 <= 4 < ULONG_MAX
  /\ (Z.to_nat 4 <= 8)%nat
  /\ asked_ports
       (trace_of (run (kernel_of (healthy "Port_#0003.Hub_#0001"))
                      (USBPcapPrintUSBPChildrenInformation 8 5 no_node_info
                                                           no_info) tt))
     = [1; 2; 3; 4]
  /\ outcome_of
       (run (kernel_of (healthy "Port_#0003.Hub_#0001"))
            (USBPcapPrintUSBPChildrenInformation 8 5 no_node_info no_info) tt)
     = Returned (Some STATUS_SUCCESS).
Proof.
  assert (HN : 0 <= 4 < ULONG_MAX) by (unfold ULONG_MAX; lia).
  assert (Hfuel : (Z.to_nat 4 <= 8)%nat) by (vm_compute; lia).
  split; [reflexivity |]. split; [reflexivity |].
  split; [exact HN |]. split; [exact Hfuel |]. split; [reflexivity |].
  apply (proj1 (listing_asks_ports_one_to_count unit
                  (kernel_of (healthy "Port_#0003.Hub_#0001"))
                  tt 8 5 no_node_info no_info STATUS_SUCCESS 4 _ tt
                  eq_refl eq_refl HN Hfuel)).
Defined.

(** X10: with the largest [ULONG] as port count the debug listing never
    ends: whatever bound is put on the loop, the routine has not
    returned, and it has built as many connection requests as the bound
    allowed. *)
Theorem listing_never_ends_at_largest_count :
  forall St (os : Kernel St) s fuel hub node_info info status tr0 s0,
    run os (USBPcapGetNumberOfPorts hub node_info) s
    = (Returned (status, Some ULONG_MAX), tr0, s0) ->
    NT_SUCCESS status = true ->
    let r := run os (USBPcapPrintUSBPChildrenInformation fuel hub node_info info) s in
    outcome_of r = Returned None
    /\ List.length (along connection_build (trace_of r)) = fuel.
Proof.
  intros St os s fuel hub node_info info status tr0 s0 Hcount Hok r.
  subst r. unfold USBPcapPrintUSBPChildrenInformation.
  rewrite run_bind, Hcount, Hok. cbn [negb]. rewrite run_bind.
  destruct (print_children_loop_goes_on St os hub fuel 1 info s0)
    as (tr & s' & Hloop & Hn); [unfold ULONG_MAX; lia|].
  rewrite Hloop. cbn [run outcome_of trace_of fst snd].
  rewrite app_nil_r.
  destruct (count_asks_no_port St os s hub node_info _ _ _ Hcount)
    as (Hb & _).
  rewrite along_app, Hb. cbn [app]. split; [reflexivity | exact Hn].
Qed.

Lemma listing_never_ends_at_largest_count_witness :
  run (kernel_of (with_node_information (healthy "Port_#0003.Hub_#0001")
                                        (parent_with ULONG_MAX)))
      (USBPcapGetNumberOfPorts 5 no_node_info) tt
  = (Returned (STATUS_SUCCESS, Some ULONG_MAX),
     [Ev KeInitializeEvent tt;
      Ev (IoBuildDeviceIoControlRequest IOCTL_USB_GET_NODE_INFORMATION 5)
         (Some 2);
      Ev (IoCallDriver 5 2
            (NodeInformationRequest (set_NodeType no_node_info UsbHub)))
         (parent_with ULONG_MAX)],
     tt)
  /\ NT_SUCCESS STATUS_SUCCESS = true
  /\ outcome_of
       (run (kernel_of (with_node_information (healthy "Port_#0003.Hub_#0001")
                                              (parent_with ULONG_MAX)))
            (USBPcapPrintUSBPChildrenInformation 6 5 no_node_info no_info) tt)
     = Returned None.
Proof.
  split; [reflexivity |]. split; [reflexivity |].
  apply (proj1 (listing_never_ends_at_largest_count unit
                  (kernel_of (with_node_information
                                (healthy "Port_#0003.Hub_#0001")
                                (parent_with ULONG_MAX)))
                  tt 6 5 no_node_info no_info STATUS_SUCCESS _ tt
                  eq_refl eq_refl)).
Defined.

(** ** The reference and its use *)

Lemma after_release_app tr1 tr2 :
  along released tr1 = [] ->
  after_release (tr1 ++ tr2) = after_release tr2.
Proof.
  induction tr1 as [|en tr1 IH]; intros Hnone; [reflexivity|].
  cbn [along flat_map] in Hnone. apply app_eq_nil in Hnone.
  destruct Hnone as [Hen Hrest].
  cbn [app after_release]. rewrite Hen. apply IH. exact Hrest.
Qed.

Lemma after_release_none tr :
  along released tr = [] -> after_release tr = [].
Proof.
  intros Hnone. rewrite <- (app_nil_r tr), after_release_app by assumption.
  reflexivity.
Qed.

(** X12: once [USBPcapGetDeviceUSBAddress] has given its reference back,
    it asks for no property of any device and releases nothing again:
    the object is not used after its release.  This holds on every path,
    also on one that faults. *)
Theorem pdo_is_not_used_after_release :
  forall St (os : Kernel St) s hub device info,
    let r := run os (USBPcapGetDeviceUSBAddress hub device info) s in
    along queried (after_release (trace_of r)) = []
    /\ along released (after_release (trace_of r)) = []
    /\ along acquired (after_release (trace_of r)) = [].
Proof.
  intros St os s hub device info r. subst r.
  resolver_steps St os s hub device info;
    repeat match goal with
           | H : run os (USBPcapGetNodeInformation ?h ?p ?i) ?s0 = _ |- _ =>
               let N := fresh "N" in
               destruct (node_asks_its_port St os s0 h p i)
                 as (? & ? & ? & ? & ? & N & _ & _ & ?);
               rewrite N in H; injection H as <- <- <- <-; clear N
           end;
    repeat (rewrite after_release_app by assumption);
    cbn [app after_release released];
    rewrite ?after_release_none by assumption;
    cbn [along flat_map]; repeat split; assumption.
Qed.
